(** * Doyle-Fuller-Newman model assembly (PyBaMM): a shallow embedding

  The development follows
  [pybamm/models/full_battery_models/lithium_ion/dfn.py] and the two
  Landesfeind (2019) electrolyte property functions.  Python objects are
  records, attribute and item access that can raise return in an error
  monad that keeps the object state (an exception does not roll back
  earlier assignments), and the submodel dictionary is an association
  list with the insertion-order semantics of a Python [dict]. *)

From Stdlib Require Import ZArith Ascii String.
From stdpp Require Import gmap strings list fin_maps.

Open Scope Z_scope.
Open Scope string_scope.
Open Scope list_scope.

(** ** Python values and exceptions *)

Module Py.

(** The option values the model branches on: [None], booleans, integers
    and strings. *)
Inductive value : Type :=
| None_
| Bool (b : bool)
| Int (z : Z)
| Str (s : string).

(** Python's [==] on these values.  [bool] is a subclass of [int], so
    [False == 0] and [True == 1] hold; values of unrelated types are
    unequal. *)
Definition eq (a b : value) : bool :=
  match a, b with
  | None_, None_ => true
  | Bool x, Bool y => Bool.eqb x y
  | Bool x, Int z | Int z, Bool x => Z.eqb z (if x then 1 else 0)
  | Int x, Int y => Z.eqb x y
  | Str x, Str y => String.eqb x y
  | _, _ => false
  end.

(** [v is False]: identity with the [False] singleton. *)
Definition is_False (v : value) : bool :=
  match v with
  | Bool false => true
  | _ => false
  end.

(** [v in l] for a list [l], decided with [==]. *)
Definition elem (v : value) (l : list value) : bool :=
  existsb (eq v) l.

Inductive exn : Type :=
| KeyError (key : string)
| AttributeError (attr : string)
| OptionError (msg : string)
| BuildError (msg : string)
| ImmutableModelError.

Inductive result (A : Type) : Type :=
| Ok (a : A)
| Raise (e : exn).
Arguments Ok {A} a.
Arguments Raise {A} e.

(** [str.lower] on ASCII text. *)
Definition lower_ascii (c : ascii) : ascii :=
  let n := nat_of_ascii c in
  if (Nat.leb 65 n && Nat.leb n 90)%bool then ascii_of_nat (n + 32) else c.

Fixpoint lower (s : string) : string :=
  match s with
  | EmptyString => EmptyString
  | String c s' => String (lower_ascii c) (lower s')
  end.

(** *** Insertion-ordered dictionaries

    [d[k] = v] on a Python [dict]: an existing key keeps its position
    and takes the new value, a new key is appended. *)
Fixpoint dict_set {V : Type} (k : string) (v : V) (d : list (string * V))
  : list (string * V) :=
  match d with
  | [] => [(k, v)]
  | (k', v') :: d' =>
      if String.eqb k' k then (k', v) :: d' else (k', v') :: dict_set k v d'
  end.

Fixpoint dict_get {V : Type} (k : string) (d : list (string * V)) : option V :=
  match d with
  | [] => None
  | (k', v') :: d' => if String.eqb k' k then Some v' else dict_get k d'
  end.

Definition dict_keys {V : Type} (d : list (string * V)) : list string :=
  map fst d.

(** A run of item assignments, first to last. *)
Definition dict_update {V : Type} (es : list (string * V)) (d : list (string * V))
  : list (string * V) :=
  fold_left (fun acc e => dict_set (fst e) (snd e) acc) es d.

(** Adding a key to a set kept as a list: a key already there is not
    added again. *)
Definition set_add (key : string) (keys : list string) : list string :=
  if bool_decide (key ∈ keys) then keys else keys ++ [key].

End Py.

Import Py.

(** ** Submodels, geometry and the model object *)

Section Model.

(** [P] is the class of the shared parameter set ([self.param]), [R] the
    class of the reactions map ([self.reactions]) and [B] the submodels
    instantiated by the setters the model inherits. *)
Context {P R B : Type}.

(** The submodel classes that [dfn.py] instantiates, with their
    constructor arguments. *)
Inductive submodel : Type :=
| porosity_Constant (param : P)
| convection_NoConvection (param : P)
| interface_ButlerVolmer (param : P) (domain reaction : string)
| particle_FickianManyParticles (param : P) (domain : string)
| particle_FastManyParticles (param : P) (domain : string)
| electrode_ohm_Full (param : P) (domain : string) (reactions : R)
| electrode_ohm_SurfaceForm (param : P) (domain : string)
| diffusion_Full (param : P) (reactions : R)
| conductivity_Full (param : P) (reactions : R)
| surf_form_FullDifferential (param : P) (domain : string) (reactions : R)
| surf_form_FullAlgebraic (param : P) (domain : string) (reactions : R)
| inherited (b : B).

(** [pybamm.Geometry(macro, micro)]. *)
Inductive Geometry : Type :=
| pybamm_Geometry (macro micro : string).

(** Kind tag of an equation in the symbolic workspace. *)
Inductive eq_kind : Type := differential | algebraic.

(** The model object.  [submodels] is the Submodel Registry; [equations],
    [variables], [boundary_conditions] and [initial_conditions] are the
    symbolic workspace, with expressions kept as text; [built] is the
    freeze flag; [citations] stands for the module-level
    [pybamm.citations] set the constructor registers into. *)
Record DFN : Type := mkDFN {
  options : gmap string value;
  name : string;
  param : option P;
  submodels : list (string * submodel);
  reactions : option R;
  equations : list (string * (string * eq_kind));
  variables : list (string * string);
  boundary_conditions : list (string * (string * string));
  initial_conditions : list (string * string);
  built : bool;
  citations : list string
}.

(** *** The method monad: state passing with exceptions *)

Definition Method (A : Type) : Type := DFN -> result A * DFN.

Definition run {A : Type} (m : Method A) (self : DFN) : result A * DFN := m self.

#[global] Instance Method_ret : MRet Method :=
  fun A a self => (Ok a, self).

#[global] Instance Method_bind : MBind Method :=
  fun A C f m self =>
    match m self with
    | (Ok a, self') => f a self'
    | (Raise e, self') => (Raise e, self')
    end.

Definition raise {A : Type} (e : exn) : Method A :=
  fun self => (Raise e, self).

Definition get {A : Type} (f : DFN -> A) : Method A :=
  fun self => (Ok (f self), self).

Definition modify (f : DFN -> DFN) : Method unit :=
  fun self => (Ok tt, f self).

(** [for x in xs: body(x)] *)
Fixpoint for_each {A : Type} (xs : list A) (body : A -> Method unit) : Method unit :=
  match xs with
  | [] => mret tt
  | x :: xs' => body x ;; for_each xs' body
  end.

(** A block of statements, run in program order; the first statement that
    raises ends the block. *)
Definition block (statements : list (Method unit)) : Method unit :=
  for_each statements (fun statement => statement).

(** *** Attribute and item access *)

(** [self.options[key]] *)
Definition options_getitem (key : string) : Method value :=
  fun self =>
    match options self !! key with
    | Some v => (Ok v, self)
    | None => (Raise (KeyError key), self)
    end.

(** [self.param] *)
Definition self_param : Method P :=
  fun self =>
    match param self with
    | Some p => (Ok p, self)
    | None => (Raise (AttributeError "param"), self)
    end.

(** [self.reactions] *)
Definition self_reactions : Method R :=
  fun self =>
    match reactions self with
    | Some r => (Ok r, self)
    | None => (Raise (AttributeError "reactions"), self)
    end.

(** *** Writes to the model

    The entry points through which a model is changed: item assignment
    into the registry and into the four workspace mappings. *)
Inductive mutation : Type :=
| set_submodel (role : string) (sub : submodel)
| set_equation (var expr : string) (kind : eq_kind)
| set_variable (var expr : string)
| set_boundary_condition (var left_bc right_bc : string)
| set_initial_condition (var expr : string).

Definition apply_mutation (mu : mutation) (self : DFN) : DFN :=
  match mu with
  | set_submodel role sub =>
      mkDFN (options self) (name self) (param self)
            (dict_set role sub (submodels self))
            (reactions self) (equations self) (variables self)
            (boundary_conditions self) (initial_conditions self)
            (built self) (citations self)
  | set_equation var expr kind =>
      mkDFN (options self) (name self) (param self) (submodels self)
            (reactions self) (dict_set var (expr, kind) (equations self))
            (variables self) (boundary_conditions self)
            (initial_conditions self) (built self) (citations self)
  | set_variable var expr =>
      mkDFN (options self) (name self) (param self) (submodels self)
            (reactions self) (equations self)
            (dict_set var expr (variables self))
            (boundary_conditions self) (initial_conditions self)
            (built self) (citations self)
  | set_boundary_condition var left_bc right_bc =>
      mkDFN (options self) (name self) (param self) (submodels self)
            (reactions self) (equations self) (variables self)
            (dict_set var (left_bc, right_bc) (boundary_conditions self))
            (initial_conditions self) (built self) (citations self)
  | set_initial_condition var expr =>
      mkDFN (options self) (name self) (param self) (submodels self)
            (reactions self) (equations self) (variables self)
            (boundary_conditions self)
            (dict_set var expr (initial_conditions self))
            (built self) (citations self)
  end.

(** Modelled from the spec: the freeze guard of the model's mappings,
    which belongs to the base model class and is not part of this slice.
    A write to a model that has been built fails with
    [ImmutableModelError] before anything is changed (spec section 4.2,
    step 6); before that it is the plain item assignment. *)
Definition mutate (mu : mutation) : Method unit :=
  frozen ← get built;
  if frozen : bool then raise ImmutableModelError
  else modify (apply_mutation mu).

(** [self.submodels[role] = sub] *)
Definition submodels_setitem (role : string) (sub : submodel) : Method unit :=
  mutate (set_submodel role sub).

End Model.

Arguments submodel : clear implicits.
Arguments DFN : clear implicits.
Arguments Method : clear implicits.
Arguments mutation : clear implicits.

(** ** The inherited part of the model class *)

(** What one submodel contributes to the workspace when the model is
  built. *)
Record contribution : Type := mkContribution {
new_variables : list (string * string);
new_equations : list (string * (string * eq_kind));
new_boundary_conditions : list (string * (string * string));
new_initial_conditions : list (string * string)
}.

(** Modelled from the spec: the base model class
  ([base_lithium_ion_model.BaseModel] and its parents), which [dfn.py]
  extends and which is not part of this slice.  It supplies the options
  validator (spec section 4.1: raw options, possibly absent, to validated
  options or a configuration error), the shared parameter set, the
  reactions map, the role/submodel pairs registered by each inherited
  setter (external circuit, tortuosity, thermal, current collector), and
  the contribution protocol of section 4.3 used when the model is
  built. *)
Record BaseModel (P R B : Type) : Type := mkBaseModel {
validate_options : option (gmap string value) -> result (gmap string value);
standard_parameters : P;
reactions_map : gmap string value -> R;
external_circuit_submodels : gmap string value -> P -> list (string * B);
tortuosity_submodels : gmap string value -> P -> list (string * B);
thermal_submodels : gmap string value -> P -> list (string * B);
current_collector_submodels : gmap string value -> P -> list (string * B);
contribute : submodel P R B -> list (string * string) -> contribution
}.

Arguments validate_options {P R B}.
Arguments standard_parameters {P R B}.
Arguments reactions_map {P R B}.
Arguments external_circuit_submodels {P R B}.
Arguments tortuosity_submodels {P R B}.
Arguments thermal_submodels {P R B}.
Arguments current_collector_submodels {P R B}.
Arguments contribute {P R B}.

(** ** The DFN class *)

Section DFN_class.

Context {P R B : Type} (base : BaseModel P R B).

#[local] Abbreviation DFN := (DFN P R B).
#[local] Abbreviation Method := (Method P R B).
#[local] Abbreviation submodel := (submodel P R B).

(** The object before [__init__] runs: no attributes yet; [cites] is
    the state of [pybamm.citations] at that time. *)
Definition object_new (cites : list string) : DFN :=
  mkDFN ∅ "" None [] None [] [] [] [] false cites.

(** *** Inherited methods *)

(** Modelled from the spec: [BaseModel.__init__(options, name)], not part
    of this slice.  It validates the options (a rejected value raises and
    leaves the object as it was), stores them with the name and the shared
    parameter set, and starts with an empty registry and workspace. *)
Definition BaseModel___init__ (raw : option (gmap string value)) (nm : string)
  : Method unit :=
  match validate_options base raw with
  | Raise e => raise e
  | Ok o =>
      modify (fun self =>
        mkDFN o nm (Some (standard_parameters base)) [] None [] [] [] []
              false (citations self))
  end.

(** Registers the role/submodel pairs of one inherited setter, in
    order. *)
Definition register_inherited
    (entries : gmap string value -> P -> list (string * B)) : Method unit :=
  o ← get options;
  p ← self_param;
  for_each (entries o p)
    (fun e => submodels_setitem (fst e) (inherited (snd e))).

(** Modelled from the spec: the four inherited setters, not part of this
    slice; each registers the submodels of its aspect.  An error raised
    inside them (the fatal dispatch error of section 4.2, step 1) is not
    modelled, so what is proved about the constructor is proved for the
    runs that return. *)
Definition set_external_circuit_submodel : Method unit :=
  register_inherited (external_circuit_submodels base).

Definition set_tortuosity_submodels : Method unit :=
  register_inherited (tortuosity_submodels base).

Definition set_thermal_submodel : Method unit :=
  register_inherited (thermal_submodels base).

Definition set_current_collector_submodel : Method unit :=
  register_inherited (current_collector_submodels base).

(** Modelled from the spec: [set_reactions], not part of this slice; it
    computes the reactions map once and stores it in [self.reactions]. *)
Definition set_reactions : Method unit :=
  modify (fun self =>
    mkDFN (options self) (name self) (param self) (submodels self)
          (Some (reactions_map base (options self)))
          (equations self) (variables self) (boundary_conditions self)
          (initial_conditions self) (built self) (citations self)).

(** Modelled from the spec: [build_model], not part of this slice
    (section 4.2, steps 4 to 6).  Every registry entry, in registry
    order, contributes to the workspace; a variable published twice is a
    [BuildError]; every differential equation needs an initial condition;
    the model is then frozen. *)
Definition publish_variable (v : string * string) : Method unit :=
  vars ← get variables;
  match dict_get (fst v) vars with
  | Some _ => raise (BuildError (fst v))
  | None => mutate (set_variable (fst v) (snd v))
  end.

Definition contribute_submodel (entry : string * submodel) : Method unit :=
  vars ← get variables;
  let c := contribute base (snd entry) vars in
  for_each (new_variables c) publish_variable ;;
  for_each (new_equations c)
    (fun e => mutate (set_equation (fst e) (fst (snd e)) (snd (snd e)))) ;;
  for_each (new_boundary_conditions c)
    (fun e => mutate (set_boundary_condition (fst e) (fst (snd e)) (snd (snd e)))) ;;
  for_each (new_initial_conditions c)
    (fun e => mutate (set_initial_condition (fst e) (snd e))).

Definition has_initial_condition (ics : list (string * string))
    (e : string * (string * eq_kind)) : bool :=
  match snd (snd e) with
  | differential =>
      match dict_get (fst e) ics with Some _ => true | None => false end
  | algebraic => true
  end.

Definition check_initial_conditions : Method unit :=
  eqs ← get equations;
  ics ← get initial_conditions;
  if forallb (has_initial_condition ics) eqs then mret tt
  else raise (BuildError "initial conditions").

Definition freeze (self : DFN) : DFN :=
  mkDFN (options self) (name self) (param self) (submodels self)
        (reactions self) (equations self) (variables self)
        (boundary_conditions self) (initial_conditions self) true
        (citations self).

Definition build_model : Method unit :=
  subs ← get submodels;
  for_each subs contribute_submodel ;;
  check_initial_conditions ;;
  modify freeze.

(** Modelled from the spec: [pybamm.citations.register(key)], not part of
    this slice.  The spec (section 1) names citations only as a bookkeeping
    side effect outside the core; the key is added to the set of registered
    citations, once, and nothing else changes. *)
Definition citations_register (key : string) : Method unit :=
  modify (fun self =>
    mkDFN (options self) (name self) (param self) (submodels self)
          (reactions self) (equations self) (variables self)
          (boundary_conditions self) (initial_conditions self) (built self)
          (set_add key (citations self))).

(** *** Methods of [dfn.py] *)

Definition set_porosity_submodel : Method unit :=
  p ← self_param;
  submodels_setitem "porosity" (porosity_Constant p).

Definition set_convection_submodel : Method unit :=
  p ← self_param;
  submodels_setitem "convection" (convection_NoConvection p).

Definition set_interfacial_submodel : Method unit :=
  p ← self_param;
  submodels_setitem "negative interface"
    (interface_ButlerVolmer p "Negative" "lithium-ion main") ;;
  p ← self_param;
  submodels_setitem "positive interface"
    (interface_ButlerVolmer p "Positive" "lithium-ion main").

Definition set_particle_submodel : Method unit :=
  particle ← options_getitem "particle";
  if eq particle (Str "Fickian diffusion") then
    p ← self_param;
    submodels_setitem "negative particle"
      (particle_FickianManyParticles p "Negative") ;;
    p ← self_param;
    submodels_setitem "positive particle"
      (particle_FickianManyParticles p "Positive")
  else
    particle ← options_getitem "particle";
    if eq particle (Str "fast diffusion") then
      p ← self_param;
      submodels_setitem "negative particle"
        (particle_FastManyParticles p "Negative") ;;
      p ← self_param;
      submodels_setitem "positive particle"
        (particle_FastManyParticles p "Positive")
    else mret tt.

Definition set_solid_submodel : Method unit :=
  surface_form ← options_getitem "surface form";
  '(submod_n, submod_p) ←
    (if is_False surface_form then
       p ← self_param; r ← self_reactions;
       let submod_n := electrode_ohm_Full p "Negative" r in
       p ← self_param; r ← self_reactions;
       let submod_p := electrode_ohm_Full p "Positive" r in
       mret (submod_n, submod_p)
     else
       p ← self_param;
       let submod_n := electrode_ohm_SurfaceForm p "Negative" in
       p ← self_param;
       let submod_p := electrode_ohm_SurfaceForm p "Positive" in
       mret (submod_n, submod_p));
  submodels_setitem "negative electrode" submod_n ;;
  submodels_setitem "positive electrode" submod_p.

Definition set_electrolyte_submodel : Method unit :=
  p ← self_param; r ← self_reactions;
  submodels_setitem "electrolyte diffusion" (diffusion_Full p r) ;;
  surface_form ← options_getitem "surface form";
  if is_False surface_form then
    p ← self_param; r ← self_reactions;
    submodels_setitem "electrolyte conductivity" (conductivity_Full p r)
  else
    surface_form ← options_getitem "surface form";
    if eq surface_form (Str "differential") then
      for_each ["Negative"; "Separator"; "Positive"] (fun domain =>
        p ← self_param; r ← self_reactions;
        submodels_setitem (lower domain +:+ " electrolyte conductivity")
          (surf_form_FullDifferential p domain r))
    else
      surface_form ← options_getitem "surface form";
      if eq surface_form (Str "algebraic") then
        for_each ["Negative"; "Separator"; "Positive"] (fun domain =>
          p ← self_param; r ← self_reactions;
          submodels_setitem (lower domain +:+ " electrolyte conductivity")
            (surf_form_FullAlgebraic p domain r))
      else mret tt.

(** The [default_geometry] property; a fall-through returns [None]. *)
Definition default_geometry : Method (option Geometry) :=
  dimensionality ← options_getitem "dimensionality";
  if eq dimensionality (Int 0) then
    mret (Some (pybamm_Geometry "1D macro" "1+1D micro"))
  else if eq dimensionality (Int 1) then
    mret (Some (pybamm_Geometry "1+1D macro" "(1+1)+1D micro"))
  else if eq dimensionality (Int 2) then
    mret (Some (pybamm_Geometry "2+1D macro" "(2+1)+1D micro"))
  else mret None.

Definition default_name : string := "Doyle-Fuller-Newman model".

(** The statements of the body of [__init__], in program order. *)
Definition __init___body (raw : option (gmap string value)) (nm : string)
    (build : bool) : list (Method unit) :=
  [ BaseModel___init__ raw nm;
    set_external_circuit_submodel;
    set_reactions;
    set_porosity_submodel;
    set_tortuosity_submodels;
    set_convection_submodel;
    set_interfacial_submodel;
    set_particle_submodel;
    set_solid_submodel;
    set_electrolyte_submodel;
    set_thermal_submodel;
    set_current_collector_submodel;
    (if build then build_model else mret tt);
    citations_register "doyle1993modeling" ].

Definition __init__ (raw : option (gmap string value)) (nm : string)
    (build : bool) : Method unit :=
  block (__init___body raw nm build).

End DFN_class.

(** ** Electrolyte property functions (Landesfeind and Gasteiger, 2019) *)

Module Landesfeind2019.

(** A decimal literal of the source, [digits * 10 ^ exponent]. *)
Record decimal : Type := mkDecimal { digits : Z; exponent : Z }.

Section Properties.

(** [A] is the type of the numeric arguments: all five parameters of a
    property function are values of it.  [W] is the state of the
    interpreter outside the function (module globals, the state of the
    imported modules).  The two [_base] functions live in modules of their
    own that the source files import; they are taken as given, and as any
    call they may read and change that state. *)
Context {A W : Type}.
Variable electrolyte_conductivity_Landesfeind2019_base :
  A -> A -> list decimal -> W -> A * W.
Variable electrolyte_diffusivity_Landesfeind2019_base :
  A -> A -> list decimal -> W -> A * W.

Definition conductivity_coeffs : list decimal :=
  [ mkDecimal 798 (-3); mkDecimal 228 0; mkDecimal (-122) (-2);
    mkDecimal 509 (-3); mkDecimal (-4) (-3); mkDecimal 379 (-5) ].

Definition diffusivity_coeffs : list decimal :=
  [ mkDecimal 147 1; mkDecimal 133 (-2); mkDecimal (-169) 1;
    mkDecimal (-563) 0 ].

Definition electrolyte_conductivity_Landesfeind2019_EC_DMC_1_1
    (c_e T T_inf E_k_e R_g : A) : W -> A * W :=
  let coeffs := conductivity_coeffs in
  electrolyte_conductivity_Landesfeind2019_base c_e T coeffs.

Definition electrolyte_diffusivity_Landesfeind2019_EC_DMC_1_1
    (c_e T T_inf E_k_e R_g : A) : W -> A * W :=
  let coeffs := diffusivity_coeffs in
  electrolyte_diffusivity_Landesfeind2019_base c_e T coeffs.

End Properties.

(** A base correlation over the integers that counts its calls in the
    outside state and whose value does not depend on that state. *)
Definition counting_base (c_e T : Z) (coeffs : list decimal) (calls : nat)
  : Z * nat :=
  (c_e * T + fold_right (fun d acc => digits d + acc) 0 coeffs, S calls).

End Landesfeind2019.

(** ** A concrete base class, for running the model *)

Module Demo.

(** A base class in the shape the spec describes: every option has a
    default, [particle], [surface form] and [dimensionality] are checked
    against their legal values, and each inherited setter registers its
    aspect under its own role name. *)
Definition defaults : gmap string value :=
  <["particle" := Str "Fickian diffusion"]>
  (<["surface form" := Bool false]>
  (<["dimensionality" := Int 0]>
  (<["convection" := Str "none"]>
  (<["thermal" := Str "isothermal"]>
  (<["current collector" := Str "uniform"]> ∅))))).

Definition legal (o : gmap string value) : bool :=
  match o !! "particle", o !! "surface form", o !! "dimensionality" with
  | Some p, Some s, Some d =>
      elem p [Str "Fickian diffusion"; Str "fast diffusion"]
      && (is_False s || elem s [Str "differential"; Str "algebraic"])
      && elem d [Int 0; Int 1; Int 2]
  | _, _, _ => false
  end.

Definition validate (raw : option (gmap string value))
  : result (gmap string value) :=
  let o := match raw with Some r => r ∪ defaults | None => defaults end in
  if legal o then Ok o else Raise (OptionError "options").

Definition contributions (sub : submodel unit string string)
    (vars : list (string * string)) : contribution :=
  match sub with
  | particle_FickianManyParticles _ d =>
      mkContribution [] [(d +:+ " particle concentration", ("div(D grad c)", differential))]
                     [(d +:+ " particle concentration", ("0", "-j/D"))]
                     [(d +:+ " particle concentration", "c0")]
  | conductivity_Full _ _ =>
      mkContribution [("Electrolyte potential", "phi_e")]
                     [("Electrolyte potential", ("div(i_e) - j", algebraic))] [] []
  | _ => mkContribution [] [] [] []
  end.

Definition base : BaseModel unit string string :=
  mkBaseModel unit string string
    validate tt (fun _ => "main")
    (fun _ _ => [("external circuit", "CurrentControl")])
    (fun _ _ => [("electrolyte tortuosity", "Bruggeman");
                 ("electrode tortuosity", "Bruggeman")])
    (fun _ _ => [("thermal", "Isothermal")])
    (fun _ _ => [("current collector", "Uniform")])
    contributions.

(** [DFN(options)] with the default name, built or not. *)
Definition new (raw : option (gmap string value)) (build : bool)
  : result unit * DFN unit string string :=
  run (__init__ base raw default_name build) (object_new []).

(** Options and model objects for concrete runs. *)
Definition differential_options : gmap string value :=
  <["surface form" := Str "differential"]> ∅.

Definition scenario_options : gmap string value :=
  <["particle" := Str "Fickian diffusion"]>
  (<["surface form" := Bool false]>
  (<["dimensionality" := Int 0]>
  (<["convection" := Str "none"]> ∅))).

(** A model whose "particle" option names no known variant, as it reaches
    [set_particle_submodel]. *)
Definition odd_particle_model : DFN unit string string :=
  mkDFN (<["particle" := Str "no diffusion"]> defaults)
        default_name (Some tt) [("porosity", porosity_Constant tt)]
        (Some "main") [] [] [] [] false [].

Definition flat_model : DFN unit string string :=
  mkDFN defaults default_name (Some tt) [] None [] [] [] [] false [].

Definition flat_thermal_model : DFN unit string string :=
  mkDFN (<["thermal" := Str "lumped"]>
         (<["particle" := Str "fast diffusion"]> defaults))
        "other" (Some tt) [("porosity", porosity_Constant tt)] (Some "main")
        [] [] [] [] true [].

Definition cubic_model : DFN unit string string :=
  mkDFN (<["dimensionality" := Int 3]> defaults)
        default_name (Some tt) [] None [] [] [] [] false [].

(** A base class whose validator accepts any options and supplies no
    defaults, to reach the setters with keys missing or values unknown. *)
Definition lax_base : BaseModel unit string string :=
  mkBaseModel unit string string
    (fun raw => Ok (match raw with Some r => r | None => ∅ end))
    tt (fun _ => "main")
    (fun _ _ => [("external circuit", "CurrentControl")])
    (fun _ _ => [("electrolyte tortuosity", "Bruggeman");
                 ("electrode tortuosity", "Bruggeman")])
    (fun _ _ => [("thermal", "Isothermal")])
    (fun _ _ => [("current collector", "Uniform")])
    contributions.

(** A model right after [BaseModel.__init__]: options stored, nothing
    registered, no reactions map. *)
Definition bare_model (o : gmap string value) : DFN unit string string :=
  mkDFN o default_name (Some tt) [] None [] [] [] [] false [].

(** The same with the reactions map in place and one entry registered. *)
Definition ready_model (o : gmap string value) : DFN unit string string :=
  mkDFN o default_name (Some tt) [("porosity", porosity_Constant tt)]
        (Some "main") [] [] [] [] false [].

Definition algebraic_options : gmap string value :=
  <["surface form" := Str "algebraic"]> ∅.

Definition fast_options : gmap string value :=
  <["particle" := Str "fast diffusion"]> ∅.

(** Options that only a lax validator lets through. *)
Definition odd_surface_options : gmap string value :=
  <["particle" := Str "Fickian diffusion"]>
  (<["surface form" := Str "implicit"]> ∅).

Definition particle_only_options : gmap string value :=
  <["particle" := Str "Fickian diffusion"]> ∅.

Definition surface_only_options : gmap string value :=
  <["surface form" := Bool false]> ∅.

Definition new_lax (raw : option (gmap string value)) (build : bool)
  : result unit * DFN unit string string :=
  run (__init__ lax_base raw default_name build) (object_new []).

End Demo.

(** ** What each setter writes *)

Section Written.

Context {P R B : Type} (base : BaseModel P R B).

#[local] Abbreviation DFN := (DFN P R B).
#[local] Abbreviation Method := (Method P R B).
#[local] Abbreviation submodel := (submodel P R B).

Implicit Types (s : DFN) (o : gmap string value) (p : P) (r : R).

(** The object with its registry replaced. *)
Definition with_submodels (d : list (string * submodel)) s : DFN :=
  mkDFN (options s) (name s) (param s) d (reactions s) (equations s)
        (variables s) (boundary_conditions s) (initial_conditions s)
        (built s) (citations s).

Definition inherited_entries (es : list (string * B)) : list (string * submodel) :=
  map (fun e => (fst e, inherited (snd e))) es.

Definition porosity_entries p : list (string * submodel) :=
  [("porosity", porosity_Constant p)].

Definition convection_entries p : list (string * submodel) :=
  [("convection", convection_NoConvection p)].

Definition interfacial_entries p : list (string * submodel) :=
  [("negative interface", interface_ButlerVolmer p "Negative" "lithium-ion main");
   ("positive interface", interface_ButlerVolmer p "Positive" "lithium-ion main")].

Definition particle_entries o p : list (string * submodel) :=
  match o !! "particle" with
  | Some v =>
      if eq v (Str "Fickian diffusion") then
        [("negative particle", particle_FickianManyParticles p "Negative");
         ("positive particle", particle_FickianManyParticles p "Positive")]
      else if eq v (Str "fast diffusion") then
        [("negative particle", particle_FastManyParticles p "Negative");
         ("positive particle", particle_FastManyParticles p "Positive")]
      else []
  | None => []
  end.

Definition solid_entries o p r : list (string * submodel) :=
  match o !! "surface form" with
  | Some v =>
      if is_False v then
        [("negative electrode", electrode_ohm_Full p "Negative" r);
         ("positive electrode", electrode_ohm_Full p "Positive" r)]
      else
        [("negative electrode", electrode_ohm_SurfaceForm p "Negative");
         ("positive electrode", electrode_ohm_SurfaceForm p "Positive")]
  | None => []
  end.

Definition conductivity_entries o p r : list (string * submodel) :=
  match o !! "surface form" with
  | Some v =>
      if is_False v then
        [("electrolyte conductivity", conductivity_Full p r)]
      else if eq v (Str "differential") then
        [("negative electrolyte conductivity", surf_form_FullDifferential p "Negative" r);
         ("separator electrolyte conductivity", surf_form_FullDifferential p "Separator" r);
         ("positive electrolyte conductivity", surf_form_FullDifferential p "Positive" r)]
      else if eq v (Str "algebraic") then
        [("negative electrolyte conductivity", surf_form_FullAlgebraic p "Negative" r);
         ("separator electrolyte conductivity", surf_form_FullAlgebraic p "Separator" r);
         ("positive electrolyte conductivity", surf_form_FullAlgebraic p "Positive" r)]
      else []
  | None => []
  end.

Definition electrolyte_entries o p r : list (string * submodel) :=
  ("electrolyte diffusion", diffusion_Full p r) :: conductivity_entries o p r.

(** The attributes that building and citing never touch. *)
Definition same_setup s s' : Prop :=
  options s' = options s /\ name s' = name s /\ param s' = param s /\
  submodels s' = submodels s /\ reactions s' = reactions s.

Definition preserves_setup {A : Type} (m : Method A) : Prop :=
  forall s res s', run m s = (res, s') -> same_setup s s'.

Definition writes_workspace (mu : mutation P R B) : bool :=
  match mu with
  | set_submodel _ _ => false
  | _ => true
  end.

(** Everything the constructor writes to the registry, in the order of its
    setter calls, for validated options [o]. *)
Definition all_entries o : list (string * submodel) :=
  let p := standard_parameters base in
  let r := reactions_map base o in
  inherited_entries (external_circuit_submodels base o p)
  ++ porosity_entries p
  ++ inherited_entries (tortuosity_submodels base o p)
  ++ convection_entries p
  ++ interfacial_entries p
  ++ particle_entries o p
  ++ solid_entries o p r
  ++ electrolyte_entries o p r
  ++ inherited_entries (thermal_submodels base o p)
  ++ inherited_entries (current_collector_submodels base o p).

(** The constructor up to the call of [set_reactions], and from it on. *)
Definition before_set_reactions (raw : option (gmap string value)) (nm : string)
  : Method unit :=
  BaseModel___init__ base raw nm ;;
  set_external_circuit_submodel base.

Definition after_set_reactions (build : bool) : Method unit :=
  set_porosity_submodel ;;
  set_tortuosity_submodels base ;;
  set_convection_submodel ;;
  set_interfacial_submodel ;;
  set_particle_submodel ;;
  set_solid_submodel ;;
  set_electrolyte_submodel ;;
  set_thermal_submodel base ;;
  set_current_collector_submodel base ;;
  (if build then build_model base else mret tt) ;;
  citations_register "doyle1993modeling".

(** The state right after [BaseModel.__init__] accepted the options. *)
Definition fresh_model o (nm : string) (cites : list string) : DFN :=
  mkDFN o nm (Some (standard_parameters base)) [] None [] [] [] [] false cites.

(** What the setters called after [set_reactions] write. *)
Definition later_entries o p r : list (string * submodel) :=
  porosity_entries p
  ++ inherited_entries (tortuosity_submodels base o p)
  ++ convection_entries p
  ++ interfacial_entries p
  ++ particle_entries o p
  ++ solid_entries o p r
  ++ electrolyte_entries o p r
  ++ inherited_entries (thermal_submodels base o p)
  ++ inherited_entries (current_collector_submodels base o p).

Definition finish (build : bool) : Method unit :=
  (if build then build_model base else mret tt) ;;
  citations_register "doyle1993modeling".

(** The state in which [set_reactions] leaves the model. *)
Definition with_reactions s : DFN :=
  mkDFN (options s) (name s) (param s) (submodels s)
        (Some (reactions_map base (options s)))
        (equations s) (variables s) (boundary_conditions s)
        (initial_conditions s) (built s) (citations s).

(** The role names that the setters of [dfn.py] assign. *)
Definition own_roles : list string :=
  ["porosity"; "convection"; "negative interface"; "positive interface";
   "negative particle"; "positive particle";
   "negative electrode"; "positive electrode";
   "electrolyte diffusion"; "electrolyte conductivity";
   "negative electrolyte conductivity"; "separator electrolyte conductivity";
   "positive electrolyte conductivity"].

(** The role names that the inherited setters assign under options [o]. *)
Definition inherited_roles o : list string :=
  let p := standard_parameters base in
  dict_keys (external_circuit_submodels base o p)
  ++ dict_keys (tortuosity_submodels base o p)
  ++ dict_keys (thermal_submodels base o p)
  ++ dict_keys (current_collector_submodels base o p).

(** Role names are unique within a build (spec section 3): the inherited
    setters use pairwise distinct role names, none of them a role name of
    [dfn.py]. *)
Definition roles_unique o : Prop := NoDup (inherited_roles o ++ own_roles).

Definition particle_roles o : list string :=
  match o !! "particle" with
  | Some v =>
      if (eq v (Str "Fickian diffusion") || eq v (Str "fast diffusion"))%bool
      then ["negative particle"; "positive particle"] else []
  | None => []
  end.

Definition conductivity_roles o : list string :=
  match o !! "surface form" with
  | Some v =>
      if is_False v then ["electrolyte conductivity"]
      else if (eq v (Str "differential") || eq v (Str "algebraic"))%bool then
        ["negative electrolyte conductivity";
         "separator electrolyte conductivity";
         "positive electrolyte conductivity"]
      else []
  | None => []
  end.

(** What the setters of [dfn.py] write, in call order. *)
Definition own_entries o : list (string * submodel) :=
  let p := standard_parameters base in
  let r := reactions_map base o in
  porosity_entries p ++ convection_entries p ++ interfacial_entries p
  ++ particle_entries o p ++ solid_entries o p r ++ electrolyte_entries o p r.

Definition is_inherited (e : string * submodel) : bool :=
  match snd e with inherited _ => true | _ => false end.

(** Entries whose submodel is a particle model. *)
Definition is_particle (e : string * submodel) : bool :=
  match snd e with
  | particle_FickianManyParticles _ _ | particle_FastManyParticles _ _ => true
  | _ => false
  end.

(** Entries whose submodel is an electrolyte-conductivity model. *)
Definition is_conductivity (e : string * submodel) : bool :=
  match snd e with
  | conductivity_Full _ _
  | surf_form_FullDifferential _ _ _
  | surf_form_FullAlgebraic _ _ _ => true
  | _ => false
  end.

(** An unknown "particle" value makes [set_particle_submodel] raise: the
    behaviour of a dispatch that treats an unknown variant as fatal. *)
Definition unknown_particle_is_fatal : Prop :=
  forall s v,
    options s !! "particle" = Some v ->
    eq v (Str "Fickian diffusion") = false ->
    eq v (Str "fast diffusion") = false ->
    exists e s', run set_particle_submodel s = (Raise e, s').

(** The reactions map comes before every submodel: at every point of the
    body of [__init__], from the end of its first statement on, at which no
    reactions map has been computed yet, the registry is still empty. *)
Definition reactions_before_any_submodel : Prop :=
  forall raw nm build (k : nat) s0 s,
    (1 <= k)%nat ->
    run (block (take k (__init___body base raw nm build))) s0 = (Ok tt, s) ->
    reactions s = None ->
    submodels s = [].

(** *** Vocabulary for the behaviour of the setters and the constructor *)

(** A method respects a relation on models when every run of it, whether
    it returns or raises, relates the model before to the model after. *)
Definition respects (Rel : DFN -> DFN -> Prop) {A : Type} (m : Method A) : Prop :=
  forall s res s', run m s = (res, s') -> Rel s s'.

(** [s'] differs from [s] in the registry at most, and the roles [s] had
    are still there, in the same positions. *)
Definition registry_grows s s' : Prop :=
  s' = with_submodels (submodels s') s /\
  dict_keys (submodels s) `prefix_of` dict_keys (submodels s').

(** The model that [DFN(options, name, build=False)] returns for validated
    options [o]. *)
Definition constructed o (nm : string) (cites : list string) : DFN :=
  mkDFN o nm (Some (standard_parameters base))
        (dict_update (all_entries o) [])
        (Some (reactions_map base o))
        [] [] [] [] false (set_add "doyle1993modeling" cites).

End Written.

(** ** Facts about insertion-ordered dictionaries *)

Section Dict.

Context {V : Type}.
Implicit Types (d es : list (string * V)) (k : string) (v : V).

Lemma eqb_string_true k k' : String.eqb k k' = true <-> k = k'.
Proof. apply String.eqb_eq. Qed.

Lemma eqb_string_false k k' : String.eqb k k' = false <-> k ≠ k'.
Proof. apply String.eqb_neq. Qed.

Lemma dict_set_fresh k v d :
  k ∉ dict_keys d -> dict_set k v d = d ++ [(k, v)].
Proof.
  induction d as [|[k' v'] d IH]; simpl; intros Hk; [reflexivity|].
  apply not_elem_of_cons in Hk as [Hne Hk].
  destruct (String.eqb k' k) eqn:E.
  - apply eqb_string_true in E. congruence.
  - rewrite IH by assumption. reflexivity.
Qed.

Lemma dict_update_app es1 es2 d :
  dict_update (es1 ++ es2) d = dict_update es2 (dict_update es1 d).
Proof. unfold dict_update. apply fold_left_app. Qed.

Lemma dict_update_fresh es d :
  NoDup (dict_keys d ++ dict_keys es) -> dict_update es d = d ++ es.
Proof.
  revert d. induction es as [|[k v] es IH]; intros d Hnd.
  - simpl. rewrite app_nil_r. reflexivity.
  - change (dict_update ((k, v) :: es) d) with (dict_update es (dict_set k v d)).
    simpl in Hnd. apply NoDup_app in Hnd as (Hd & Hdis & Hes).
    apply NoDup_cons in Hes as [Hk Hes].
    assert (Hkd : k ∉ dict_keys d).
    { intros Hin. apply (Hdis _ Hin). left. }
    rewrite (dict_set_fresh _ _ _ Hkd), IH.
    + rewrite <- app_assoc. reflexivity.
    + unfold dict_keys. rewrite map_app. simpl.
      rewrite <- app_assoc. simpl.
      apply NoDup_app. split; [assumption|]. split.
      * intros x Hx Hx'. apply elem_of_cons in Hx' as [->|Hx'].
        -- contradiction.
        -- apply (Hdis _ Hx). right. exact Hx'.
      * apply NoDup_cons. split; assumption.
Qed.

Lemma dict_update_nil es :
  NoDup (dict_keys es) -> dict_update es [] = es.
Proof. intros H. rewrite dict_update_fresh; [reflexivity | exact H]. Qed.

Lemma dict_get_app k d1 d2 :
  dict_get k (d1 ++ d2) =
  match dict_get k d1 with Some v => Some v | None => dict_get k d2 end.
Proof.
  induction d1 as [|[k' v'] d1 IH]; simpl; [reflexivity|].
  destruct (String.eqb k' k); [reflexivity | exact IH].
Qed.

Lemma dict_get_None k d : k ∉ dict_keys d -> dict_get k d = None.
Proof.
  induction d as [|[k' v'] d IH]; simpl; intros Hk; [reflexivity|].
  apply not_elem_of_cons in Hk as [Hne Hk].
  destruct (String.eqb k' k) eqn:E.
  - apply eqb_string_true in E. congruence.
  - apply IH, Hk.
Qed.

Lemma dict_get_set_eq k v d : dict_get k (dict_set k v d) = Some v.
Proof.
  induction d as [|[k' v'] d IH]; simpl.
  - rewrite String.eqb_refl. reflexivity.
  - destruct (String.eqb k' k) eqn:E; simpl; rewrite E; [reflexivity | exact IH].
Qed.

Lemma dict_get_set_ne k k' v d :
  k ≠ k' -> dict_get k' (dict_set k v d) = dict_get k' d.
Proof.
  intros Hne. induction d as [|[k0 v0] d IH]; simpl.
  - apply eqb_string_false in Hne. rewrite Hne. reflexivity.
  - destruct (String.eqb k0 k) eqn:E; simpl.
    + apply eqb_string_true in E. subst k0.
      apply eqb_string_false in Hne. rewrite Hne. reflexivity.
    + rewrite IH. reflexivity.
Qed.

Lemma dict_keys_app d1 d2 : dict_keys (d1 ++ d2) = dict_keys d1 ++ dict_keys d2.
Proof. apply map_app. Qed.

(** *** Assignments keep the order, the keys distinct, and are idempotent *)

Lemma dict_set_id k v d : dict_get k d = Some v -> dict_set k v d = d.
Proof.
  induction d as [|[k' v'] d IH]; simpl; [discriminate|].
  destruct (String.eqb k' k) eqn:E.
  - intros [= ->]. reflexivity.
  - intros H. rewrite IH by exact H. reflexivity.
Qed.

Lemma dict_set_keys k v d :
  dict_keys (dict_set k v d) =
  if decide (k ∈ dict_keys d) then dict_keys d else dict_keys d ++ [k].
Proof.
  induction d as [|[k' v'] d IH]; simpl.
  - destruct (decide (k ∈ [])) as [Hin|_]; [|reflexivity].
    apply elem_of_nil in Hin. contradiction.
  - destruct (String.eqb k' k) eqn:E; simpl.
    + apply eqb_string_true in E. subst k'.
      destruct (decide (k ∈ k :: dict_keys d)) as [_|Hn]; [reflexivity|].
      exfalso. apply Hn. left.
    + apply eqb_string_false in E. rewrite IH.
      destruct (decide (k ∈ dict_keys d)) as [Hin|Hn];
        destruct (decide (k ∈ k' :: dict_keys d)) as [Hin'|Hn'];
        try reflexivity.
      * exfalso. apply Hn'. right. exact Hin.
      * exfalso. apply elem_of_cons in Hin' as [->|Hin']; [congruence|contradiction].
Qed.

Lemma dict_set_prefix k v d :
  dict_keys d `prefix_of` dict_keys (dict_set k v d).
Proof.
  rewrite dict_set_keys. destruct (decide (k ∈ dict_keys d)).
  - reflexivity.
  - exists [k]. reflexivity.
Qed.

Lemma dict_update_prefix es d :
  dict_keys d `prefix_of` dict_keys (dict_update es d).
Proof.
  revert d. induction es as [|[k v] es IH]; intros d.
  - reflexivity.
  - change (dict_update ((k, v) :: es) d) with (dict_update es (dict_set k v d)).
    etransitivity; [apply (dict_set_prefix k v) | apply IH].
Qed.

Lemma dict_set_NoDup k v d :
  NoDup (dict_keys d) -> NoDup (dict_keys (dict_set k v d)).
Proof.
  intros Hd. rewrite dict_set_keys.
  destruct (decide (k ∈ dict_keys d)) as [Hin|Hn]; [exact Hd|].
  apply NoDup_app. split; [exact Hd|]. split.
  - intros x Hx Hx'. apply list_elem_of_singleton in Hx'. subst x. contradiction.
  - apply NoDup_singleton.
Qed.

Lemma dict_update_NoDup es d :
  NoDup (dict_keys d) -> NoDup (dict_keys (dict_update es d)).
Proof.
  revert d. induction es as [|[k v] es IH]; intros d Hd; [exact Hd|].
  change (dict_update ((k, v) :: es) d) with (dict_update es (dict_set k v d)).
  apply IH, dict_set_NoDup, Hd.
Qed.

Lemma dict_update_id es d :
  Forall (fun e => dict_get (fst e) d = Some (snd e)) es ->
  dict_update es d = d.
Proof.
  induction 1 as [|[k v] es Hkv _ IH]; [reflexivity|].
  change (dict_update ((k, v) :: es) d) with (dict_update es (dict_set k v d)).
  simpl in Hkv. rewrite (dict_set_id _ _ _ Hkv). exact IH.
Qed.

Lemma dict_get_update_other k es d :
  k ∉ dict_keys es -> dict_get k (dict_update es d) = dict_get k d.
Proof.
  revert d. induction es as [|[k' v'] es IH]; intros d Hk; [reflexivity|].
  change (dict_update ((k', v') :: es) d) with (dict_update es (dict_set k' v' d)).
  simpl in Hk. apply not_elem_of_cons in Hk as [Hne Hk].
  rewrite IH by exact Hk. apply dict_get_set_ne. congruence.
Qed.

Lemma dict_get_update es d :
  NoDup (dict_keys es) ->
  Forall (fun e => dict_get (fst e) (dict_update es d) = Some (snd e)) es.
Proof.
  revert d. induction es as [|[k v] es IH]; intros d Hnd; [constructor|].
  simpl in Hnd. apply NoDup_cons in Hnd as [Hk Hnd].
  change (dict_update ((k, v) :: es) d) with (dict_update es (dict_set k v d)).
  constructor.
  - simpl. rewrite dict_get_update_other by exact Hk. apply dict_get_set_eq.
  - apply IH, Hnd.
Qed.

(** Repeating a run of assignments to distinct keys changes nothing. *)
Lemma dict_update_idem es d :
  NoDup (dict_keys es) ->
  dict_update es (dict_update es d) = dict_update es d.
Proof. intros Hnd. apply dict_update_id, dict_get_update, Hnd. Qed.

End Dict.

(** ** Running the setters *)

Section Registration.

Context {P R B : Type} (base : BaseModel P R B).

#[local] Abbreviation DFN := (DFN P R B).
#[local] Abbreviation Method := (Method P R B).
#[local] Abbreviation submodel := (submodel P R B).

Implicit Types (s : DFN) (o : gmap string value) (p : P) (r : R).

#[local] Abbreviation all_entries := (all_entries base).
#[local] Abbreviation before_set_reactions := (before_set_reactions base).
#[local] Abbreviation after_set_reactions := (after_set_reactions base).
#[local] Abbreviation fresh_model := (fresh_model base).
#[local] Abbreviation later_entries := (later_entries base).
#[local] Abbreviation finish := (finish base).
#[local] Abbreviation with_reactions := (with_reactions base).
#[local] Abbreviation inherited_roles := (inherited_roles base).
#[local] Abbreviation roles_unique := (roles_unique base).
#[local] Abbreviation own_entries := (own_entries base).
#[local] Abbreviation reactions_before_any_submodel := (reactions_before_any_submodel base).
#[local] Abbreviation preserves_setup := (preserves_setup (P:=P) (R:=R) (B:=B)).
#[local] Abbreviation is_inherited := (is_inherited (P:=P) (R:=R) (B:=B)).
#[local] Abbreviation is_particle := (is_particle (P:=P) (R:=R) (B:=B)).
#[local] Abbreviation is_conductivity := (is_conductivity (P:=P) (R:=R) (B:=B)).
#[local] Abbreviation inherited_entries := (inherited_entries (P:=P) (R:=R) (B:=B)).
#[local] Abbreviation porosity_entries := (porosity_entries (P:=P) (R:=R) (B:=B)).
#[local] Abbreviation convection_entries := (convection_entries (P:=P) (R:=R) (B:=B)).
#[local] Abbreviation interfacial_entries := (interfacial_entries (P:=P) (R:=R) (B:=B)).
#[local] Abbreviation particle_entries := (particle_entries (P:=P) (R:=R) (B:=B)).
#[local] Abbreviation solid_entries := (solid_entries (P:=P) (R:=R) (B:=B)).
#[local] Abbreviation conductivity_entries := (conductivity_entries (P:=P) (R:=R) (B:=B)).
#[local] Abbreviation electrolyte_entries := (electrolyte_entries (P:=P) (R:=R) (B:=B)).
#[local] Abbreviation unknown_particle_is_fatal := (unknown_particle_is_fatal (P:=P) (R:=R) (B:=B)).

(** *** Running binds *)

Lemma run_bind {A C : Type} (m : Method A) (k : A -> Method C) s :
  run (m ≫= k) s =
  match run m s with
  | (Ok a, s') => run (k a) s'
  | (Raise e, s') => (Raise e, s')
  end.
Proof. reflexivity. Qed.

Lemma bind_Ok {A C : Type} (m : Method A) (k : A -> Method C) s c s'' :
  run (m ≫= k) s = (Ok c, s'') ->
  exists a s', run m s = (Ok a, s') /\ run (k a) s' = (Ok c, s'').
Proof.
  rewrite run_bind. destruct (run m s) as [[a|e] s'] eqn:E; intros H.
  - exists a, s'. split; [reflexivity | exact H].
  - discriminate H.
Qed.

Lemma with_submodels_id s : with_submodels (submodels s) s = s.
Proof. destruct s; reflexivity. Qed.

Lemma setitem_run role (sub : submodel) s :
  built s = false ->
  run (submodels_setitem role sub) s
  = (Ok tt, with_submodels (dict_set role sub (submodels s)) s).
Proof.
  intros Hb. unfold submodels_setitem, mutate. rewrite run_bind.
  unfold get, run at 1. rewrite Hb. reflexivity.
Qed.

Lemma for_each_setitem {A : Type} (xs : list A) (key : A -> string)
    (val : A -> submodel) s :
  built s = false ->
  run (for_each xs (fun x => submodels_setitem (key x) (val x))) s
  = (Ok tt, with_submodels
              (dict_update (map (fun x => (key x, val x)) xs) (submodels s)) s).
Proof.
  revert s. induction xs as [|x xs IH]; intros s Hb.
  - simpl. rewrite with_submodels_id. reflexivity.
  - simpl for_each. rewrite run_bind, setitem_run by assumption.
    rewrite IH by assumption. reflexivity.
Qed.

Lemma self_param_run s p : param s = Some p -> run self_param s = (Ok p, s).
Proof. intros H. unfold run, self_param. rewrite H. reflexivity. Qed.

Lemma self_reactions_run s r :
  reactions s = Some r -> run self_reactions s = (Ok r, s).
Proof. intros H. unfold run, self_reactions. rewrite H. reflexivity. Qed.

Lemma options_getitem_run s key :
  run (options_getitem key) s =
  match options s !! key with
  | Some v => (Ok v, s)
  | None => (Raise (KeyError key), s)
  end.
Proof. reflexivity. Qed.

Lemma mret_run {A : Type} (a : A) s : run (mret a) s = (Ok a, s).
Proof. reflexivity. Qed.

(** Symbolic execution of a method body, up to the next branch. *)
Ltac exec :=
  repeat first
    [ progress cbv beta iota
    | rewrite run_bind
    | rewrite mret_run
    | rewrite options_getitem_run
    | erewrite self_param_run by (simpl; eassumption)
    | erewrite self_reactions_run by (simpl; eassumption)
    | rewrite setitem_run by (simpl; assumption)
    | rewrite for_each_setitem by (simpl; assumption) ];
  cbv beta iota.

Lemma register_inherited_run entries s p :
  built s = false -> param s = Some p ->
  run (register_inherited entries) s
  = (Ok tt, with_submodels
              (dict_update (inherited_entries (entries (options s) p)) (submodels s)) s).
Proof.
  intros Hb Hp. unfold register_inherited. rewrite run_bind.
  unfold get at 1, run at 1. cbv beta iota. exec.
  reflexivity.
Qed.

Lemma set_porosity_run s p :
  built s = false -> param s = Some p ->
  run set_porosity_submodel s
  = (Ok tt, with_submodels (dict_update (porosity_entries p) (submodels s)) s).
Proof. intros Hb Hp. unfold set_porosity_submodel. exec. reflexivity. Qed.

Lemma set_convection_run s p :
  built s = false -> param s = Some p ->
  run set_convection_submodel s
  = (Ok tt, with_submodels (dict_update (convection_entries p) (submodels s)) s).
Proof. intros Hb Hp. unfold set_convection_submodel. exec. reflexivity. Qed.

Lemma set_interfacial_run s p :
  built s = false -> param s = Some p ->
  run set_interfacial_submodel s
  = (Ok tt, with_submodels (dict_update (interfacial_entries p) (submodels s)) s).
Proof. intros Hb Hp. unfold set_interfacial_submodel. exec. reflexivity. Qed.

Lemma set_particle_run s p :
  built s = false -> param s = Some p ->
  run set_particle_submodel s =
  match options s !! "particle" with
  | Some _ =>
      (Ok tt, with_submodels
                (dict_update (particle_entries (options s) p) (submodels s)) s)
  | None => (Raise (KeyError "particle"), s)
  end.
Proof.
  intros Hb Hp. unfold set_particle_submodel, particle_entries. exec.
  destruct (options s !! "particle") as [v|] eqn:Ev; [|reflexivity].
  destruct (eq v (Str "Fickian diffusion")); exec; [reflexivity|].
  rewrite Ev. cbv beta iota.
  destruct (eq v (Str "fast diffusion")); exec; [reflexivity|].
  unfold dict_update. simpl. rewrite with_submodels_id. reflexivity.
Qed.

Lemma set_solid_run s p r :
  built s = false -> param s = Some p -> reactions s = Some r ->
  run set_solid_submodel s =
  match options s !! "surface form" with
  | Some _ =>
      (Ok tt, with_submodels
                (dict_update (solid_entries (options s) p r) (submodels s)) s)
  | None => (Raise (KeyError "surface form"), s)
  end.
Proof.
  intros Hb Hp Hr. unfold set_solid_submodel, solid_entries. exec.
  destruct (options s !! "surface form") as [v|] eqn:Ev; [|reflexivity].
  destruct (is_False v); exec; reflexivity.
Qed.

Lemma set_electrolyte_run s p r :
  built s = false -> param s = Some p -> reactions s = Some r ->
  run set_electrolyte_submodel s =
  match options s !! "surface form" with
  | Some _ =>
      (Ok tt, with_submodels
                (dict_update (electrolyte_entries (options s) p r) (submodels s)) s)
  | None =>
      (Raise (KeyError "surface form"),
       with_submodels
         (dict_set "electrolyte diffusion" (diffusion_Full p r) (submodels s)) s)
  end.
Proof.
  intros Hb Hp Hr.
  unfold set_electrolyte_submodel, electrolyte_entries, conductivity_entries.
  exec. simpl options.
  destruct (options s !! "surface form") as [v|] eqn:Ev; [|reflexivity].
  destruct (is_False v); exec; [reflexivity|].
  simpl options. rewrite Ev. cbv beta iota.
  destruct (eq v (Str "differential")).
  { simpl for_each. exec. reflexivity. }
  exec. simpl options. rewrite Ev. cbv beta iota.
  destruct (eq v (Str "algebraic")).
  { simpl for_each. exec. reflexivity. }
  reflexivity.
Qed.

(** *** Building leaves the registry alone *)

Lemma same_setup_refl s : same_setup s s.
Proof. repeat split. Qed.

Lemma same_setup_trans s1 s2 s3 :
  same_setup s1 s2 -> same_setup s2 s3 -> same_setup s1 s3.
Proof.
  intros (a1 & a2 & a3 & a4 & a5) (b1 & b2 & b3 & b4 & b5).
  repeat split; congruence.
Qed.

Lemma preserves_bind {A C : Type} (m : Method A) (k : A -> Method C) :
  preserves_setup m -> (forall a, preserves_setup (k a)) ->
  preserves_setup (m ≫= k).
Proof.
  intros Hm Hk s res s'. rewrite run_bind.
  destruct (run m s) as [[a|e] s1] eqn:E; intros H.
  - eapply same_setup_trans; [eapply Hm, E | eapply Hk, H].
  - injection H as <- <-. eapply Hm, E.
Qed.

Lemma preserves_pure {A : Type} (x : result A) :
  preserves_setup (fun s : DFN => (x, s)).
Proof. intros s res s' H. injection H as <- <-. apply same_setup_refl. Qed.

Lemma preserves_get {A : Type} (f : DFN -> A) : preserves_setup (get f).
Proof. intros s res s' H. injection H as <- <-. apply same_setup_refl. Qed.

Lemma preserves_for_each {A : Type} (xs : list A) (body : A -> Method unit) :
  (forall x, preserves_setup (body x)) -> preserves_setup (for_each xs body).
Proof.
  intros Hb. induction xs as [|x xs IH]; simpl.
  - apply (preserves_pure (Ok tt)).
  - apply preserves_bind; [apply Hb | intros _; exact IH].
Qed.

Lemma preserves_mutate (mu : mutation P R B) :
  writes_workspace mu = true -> preserves_setup (mutate mu).
Proof.
  intros Hmu s res s'. unfold mutate. rewrite run_bind.
  unfold get at 1, run at 1. cbv beta iota.
  destruct (built s); intros H; injection H as <- <-.
  - apply same_setup_refl.
  - destruct mu; try discriminate Hmu; repeat split.
Qed.

Lemma preserves_publish_variable v : preserves_setup (publish_variable v).
Proof.
  unfold publish_variable. apply preserves_bind.
  - apply preserves_get.
  - intros vars. destruct (dict_get v.1 vars).
    + apply (preserves_pure (Raise _)).
    + apply preserves_mutate. reflexivity.
Qed.

Lemma preserves_contribute_submodel entry :
  preserves_setup (contribute_submodel base entry).
Proof.
  unfold contribute_submodel. apply preserves_bind; [apply preserves_get|].
  intros vars. cbv zeta.
  repeat (apply preserves_bind; [|intros _]);
    apply preserves_for_each; intros x;
    first [apply preserves_publish_variable | apply preserves_mutate; reflexivity].
Qed.

Lemma preserves_check_initial_conditions :
  preserves_setup check_initial_conditions.
Proof.
  unfold check_initial_conditions.
  apply preserves_bind; [apply preserves_get|].
  intros eqs. apply preserves_bind; [apply preserves_get|].
  intros ics. destruct (forallb _ _).
  - apply (preserves_pure (Ok tt)).
  - apply (preserves_pure (Raise _)).
Qed.

Lemma preserves_build_model : preserves_setup (build_model base).
Proof.
  unfold build_model. apply preserves_bind; [apply preserves_get|].
  intros subs. apply preserves_bind.
  { apply preserves_for_each. intros x. apply preserves_contribute_submodel. }
  intros _. apply preserves_bind; [apply preserves_check_initial_conditions|].
  intros _ s res s' H. injection H as <- <-. repeat split.
Qed.

Lemma build_model_built s m :
  run (build_model base) s = (Ok tt, m) -> built m = true.
Proof.
  unfold build_model. intros H.
  apply bind_Ok in H as (subs & s1 & _ & H).
  apply bind_Ok in H as (? & s2 & _ & H).
  apply bind_Ok in H as (? & s3 & _ & H).
  injection H as <-. reflexivity.
Qed.

(** *** The registry after construction *)

Lemma __init___split raw nm build s0 :
  run (__init__ base raw nm build) s0 =
  run (before_set_reactions raw nm ;; set_reactions base ;; after_set_reactions build) s0.
Proof.
  unfold __init__, __init___body, block, before_set_reactions,
    after_set_reactions.
  cbn [for_each].
  rewrite (run_bind (BaseModel___init__ base raw nm)).
  rewrite (run_bind (BaseModel___init__ base raw nm ≫= _)).
  rewrite (run_bind (BaseModel___init__ base raw nm) (fun _ => set_external_circuit_submodel base)).
  destruct (run (BaseModel___init__ base raw nm) s0) as [[[]|e] s1]; [|reflexivity].
  rewrite (run_bind (set_external_circuit_submodel base)).
  destruct (run (set_external_circuit_submodel base) s1) as [[[]|e] s2];
    reflexivity.
Qed.

Lemma BaseModel___init___run raw nm s0 :
  run (BaseModel___init__ base raw nm) s0 =
  match validate_options base raw with
  | Ok o => (Ok tt, fresh_model o nm (citations s0))
  | Raise e => (Raise e, s0)
  end.
Proof.
  unfold BaseModel___init__. destruct (validate_options base raw); reflexivity.
Qed.

Lemma before_set_reactions_run raw nm s0 :
  run (before_set_reactions raw nm) s0 =
  match validate_options base raw with
  | Ok o =>
      (Ok tt,
       with_submodels
         (dict_update
            (inherited_entries
               (external_circuit_submodels base o (standard_parameters base))) [])
         (fresh_model o nm (citations s0)))
  | Raise e => (Raise e, s0)
  end.
Proof.
  unfold before_set_reactions. rewrite run_bind, BaseModel___init___run.
  destruct (validate_options base raw) as [o|e]; [|reflexivity].
  unfold set_external_circuit_submodel.
  erewrite register_inherited_run; reflexivity.
Qed.

Lemma with_submodels_twice d d' s :
  with_submodels d (with_submodels d' s) = with_submodels d s.
Proof. reflexivity. Qed.

Ltac setter_step lem :=
  rewrite run_bind; erewrite lem by (simpl; eassumption);
  cbv beta iota; rewrite ?with_submodels_twice;
  cbn [options submodels with_submodels].

Lemma after_set_reactions_run build s p r :
  built s = false -> param s = Some p -> reactions s = Some r ->
  is_Some (options s !! "particle") ->
  is_Some (options s !! "surface form") ->
  run (after_set_reactions build) s =
  run (finish build)
      (with_submodels (dict_update (later_entries (options s) p r) (submodels s)) s).
Proof.
  intros Hb Hp Hr [vp Hvp] [vs Hvs]. unfold after_set_reactions, later_entries.
  rewrite !dict_update_app.
  setter_step set_porosity_run.
  unfold set_tortuosity_submodels. setter_step register_inherited_run.
  setter_step set_convection_run.
  setter_step set_interfacial_run.
  setter_step set_particle_run. rewrite Hvp. cbv beta iota.
  rewrite ?with_submodels_twice. cbn [options submodels with_submodels].
  setter_step set_solid_run. rewrite Hvs. cbv beta iota.
  rewrite ?with_submodels_twice. cbn [options submodels with_submodels].
  setter_step set_electrolyte_run. rewrite Hvs. cbv beta iota.
  rewrite ?with_submodels_twice. cbn [options submodels with_submodels].
  unfold set_thermal_submodel. setter_step register_inherited_run.
  unfold set_current_collector_submodel. setter_step register_inherited_run.
  reflexivity.
Qed.

Lemma after_set_reactions_Ok build s p r m :
  built s = false -> param s = Some p -> reactions s = Some r ->
  run (after_set_reactions build) s = (Ok tt, m) ->
  is_Some (options s !! "particle") /\ is_Some (options s !! "surface form").
Proof.
  intros Hb Hp Hr. unfold after_set_reactions.
  setter_step set_porosity_run.
  unfold set_tortuosity_submodels. setter_step register_inherited_run.
  setter_step set_convection_run.
  setter_step set_interfacial_run.
  setter_step set_particle_run.
  destruct (options s !! "particle") as [vp|]; [|discriminate].
  cbv beta iota. rewrite ?with_submodels_twice.
  cbn [options submodels with_submodels].
  setter_step set_solid_run.
  destruct (options s !! "surface form") as [vs|]; [|discriminate].
  intros _. split; eexists; reflexivity.
Qed.

Lemma finish_Ok build s m :
  run (finish build) s = (Ok tt, m) ->
  same_setup s m /\ (build = true -> built m = true).
Proof.
  unfold finish. intros H. apply bind_Ok in H as ([] & s1 & H1 & H2).
  injection H2 as <-. destruct build.
  - split.
    + apply preserves_build_model in H1 as (a1 & a2 & a3 & a4 & a5).
      repeat split; assumption.
    + intros _. apply build_model_built in H1. exact H1.
  - injection H1 as <-. split; [repeat split | discriminate].
Qed.

Lemma set_reactions_run s :
  run (set_reactions base) s = (Ok tt, with_reactions s).
Proof. reflexivity. Qed.

(** A successful construction: the options were accepted, both options the
    setters read are present, and the registry holds what the setters wrote,
    in call order. *)
Lemma __init___Ok raw nm build s0 m :
  run (__init__ base raw nm build) s0 = (Ok tt, m) ->
  exists o,
    validate_options base raw = Ok o /\
    options m = o /\
    param m = Some (standard_parameters base) /\
    reactions m = Some (reactions_map base o) /\
    submodels m = dict_update (all_entries o) [] /\
    is_Some (o !! "particle") /\
    is_Some (o !! "surface form") /\
    (build = true -> built m = true).
Proof.
  rewrite __init___split, run_bind, before_set_reactions_run.
  destruct (validate_options base raw) as [o|e]; [|discriminate].
  cbv beta iota. rewrite run_bind, set_reactions_run. cbv beta iota.
  set (p := standard_parameters base). set (r := reactions_map base o).
  set (s2 := with_reactions _).
  assert (Hb : built s2 = false) by reflexivity.
  assert (Hp : param s2 = Some p) by reflexivity.
  assert (Hr : reactions s2 = Some r) by reflexivity.
  intros H.
  destruct (after_set_reactions_Ok build s2 p r m Hb Hp Hr H) as [Hvp Hvs].
  rewrite (after_set_reactions_run build s2 p r Hb Hp Hr Hvp Hvs) in H.
  apply finish_Ok in H as ((a1 & a2 & a3 & a4 & a5) & Hbuilt).
  exists o. repeat split; try assumption.
  rewrite a4. unfold all_entries. rewrite dict_update_app. reflexivity.
Qed.

(** *** Role names *)

Lemma dict_keys_inherited (es : list (string * B)) :
  dict_keys (inherited_entries es) = dict_keys es.
Proof.
  unfold dict_keys, inherited_entries. rewrite map_map. reflexivity.
Qed.

Lemma particle_entries_keys o p :
  dict_keys (particle_entries o p) = particle_roles o.
Proof.
  unfold particle_entries, particle_roles.
  destruct (o !! "particle") as [v|]; [|reflexivity].
  destruct (eq v (Str "Fickian diffusion")); [reflexivity|].
  destruct (eq v (Str "fast diffusion")); reflexivity.
Qed.

Lemma conductivity_entries_keys o p r :
  dict_keys (conductivity_entries o p r) = conductivity_roles o.
Proof.
  unfold conductivity_entries, conductivity_roles.
  destruct (o !! "surface form") as [v|]; [|reflexivity].
  destruct (is_False v); [reflexivity|].
  destruct (eq v (Str "differential")); [reflexivity|].
  destruct (eq v (Str "algebraic")); reflexivity.
Qed.

Lemma solid_entries_keys o p r :
  is_Some (o !! "surface form") ->
  dict_keys (solid_entries o p r) = ["negative electrode"; "positive electrode"].
Proof.
  intros [v Hv]. unfold solid_entries. rewrite Hv.
  destruct (is_False v); reflexivity.
Qed.

Lemma all_entries_keys o :
  is_Some (o !! "surface form") ->
  dict_keys (all_entries o) =
  dict_keys (external_circuit_submodels base o (standard_parameters base))
  ++ ["porosity"]
  ++ dict_keys (tortuosity_submodels base o (standard_parameters base))
  ++ ["convection"]
  ++ ["negative interface"; "positive interface"]
  ++ particle_roles o
  ++ ["negative electrode"; "positive electrode"]
  ++ ("electrolyte diffusion" :: conductivity_roles o)
  ++ dict_keys (thermal_submodels base o (standard_parameters base))
  ++ dict_keys (current_collector_submodels base o (standard_parameters base)).
Proof.
  intros Hs. unfold all_entries, electrolyte_entries. cbv zeta.
  rewrite !dict_keys_app, !dict_keys_inherited, particle_entries_keys,
    (solid_entries_keys _ _ _ Hs).
  change (dict_keys (?e :: ?l)) with (fst e :: dict_keys l).
  rewrite conductivity_entries_keys. reflexivity.
Qed.

Lemma all_entries_NoDup o :
  is_Some (o !! "surface form") -> roles_unique o ->
  NoDup (dict_keys (all_entries o)).
Proof.
  intros Hs Hu. rewrite (all_entries_keys o Hs).
  unfold roles_unique, inherited_roles, own_roles in Hu. cbv zeta in Hu.
  set (E := dict_keys (external_circuit_submodels _ _ _)) in *.
  set (T := dict_keys (tortuosity_submodels _ _ _)) in *.
  set (H := dict_keys (thermal_submodels _ _ _)) in *.
  set (C := dict_keys (current_collector_submodels _ _ _)) in *.
  match goal with |- NoDup ?l =>
    match type of Hu with NoDup ?k =>
      assert (Hsub : l ⊆+ k)
    end
  end.
  { unfold particle_roles, conductivity_roles.
    destruct (o !! "particle") as [vp|];
      [destruct (eq vp (Str "Fickian diffusion") || eq vp (Str "fast diffusion"))%bool|];
    (destruct Hs as [vs ->];
      destruct (is_False vs);
      [|destruct (eq vs (Str "differential") || eq vs (Str "algebraic"))%bool]);
    solve_submseteq. }
  apply submseteq_Permutation in Hsub as [k Hk].
  rewrite Hk in Hu. apply NoDup_app in Hu as [Hu _]. exact Hu.
Qed.

Lemma registry_all_entries o :
  is_Some (o !! "surface form") -> roles_unique o ->
  dict_update (all_entries o) [] = all_entries o.
Proof. intros Hs Hu. apply dict_update_nil, all_entries_NoDup; assumption. Qed.

Lemma own_role_not_inherited o k :
  roles_unique o -> k ∈ own_roles -> k ∉ inherited_roles o.
Proof.
  intros Hu Hk Hin. apply NoDup_app in Hu as (_ & Hdis & _).
  exact (Hdis k Hin Hk).
Qed.

Lemma dict_get_inherited k (es : list (string * B)) :
  k ∉ dict_keys es -> dict_get k (inherited_entries es) = None.
Proof.
  intros Hk. apply dict_get_None. rewrite dict_keys_inherited. exact Hk.
Qed.

(** Looking up a role of [dfn.py] only ever finds what [dfn.py] wrote. *)
Lemma dict_get_all_entries o k :
  roles_unique o -> k ∈ own_roles ->
  dict_get k (all_entries o) = dict_get k (own_entries o).
Proof.
  intros Hu Hk. pose proof (own_role_not_inherited o k Hu Hk) as Hn.
  unfold inherited_roles in Hn. cbv zeta in Hn.
  rewrite !not_elem_of_app in Hn. destruct Hn as (HE & HT & HH & HC).
  unfold all_entries, own_entries. cbv zeta.
  rewrite !dict_get_app.
  rewrite (dict_get_inherited _ _ HE), (dict_get_inherited _ _ HT),
    (dict_get_inherited _ _ HH), (dict_get_inherited _ _ HC).
  repeat match goal with
         | |- context [match ?x with Some _ => _ | None => _ end] =>
             destruct x; try reflexivity
         end.
Qed.

Lemma filter_inherited (f : string * submodel -> bool) (es : list (string * B)) :
  (forall e, is_inherited e = true -> f e = false) ->
  List.filter f (inherited_entries es) = [].
Proof.
  intros Hf. induction es as [|e es IH]; simpl; [reflexivity|].
  rewrite Hf by reflexivity. exact IH.
Qed.

(** Selecting entries by a class of [dfn.py] skips the inherited ones. *)
Lemma filter_all_entries (f : string * submodel -> bool) o :
  (forall e, is_inherited e = true -> f e = false) ->
  List.filter f (all_entries o) = List.filter f (own_entries o).
Proof.
  intros Hf. unfold all_entries, own_entries. cbv zeta.
  rewrite !List.filter_app, !(filter_inherited f _ Hf), !app_nil_r.
  reflexivity.
Qed.

Lemma is_particle_not_inherited e : is_inherited e = true -> is_particle e = false.
Proof. destruct e as [k []]; cbn; intros H; first [reflexivity | discriminate H]. Qed.

Lemma is_conductivity_not_inherited e :
  is_inherited e = true -> is_conductivity e = false.
Proof. destruct e as [k []]; cbn; intros H; first [reflexivity | discriminate H]. Qed.

(** ** The registry after construction: main results *)

Ltac own_role := unfold own_roles; rewrite !elem_of_cons; tauto.

Ltac by_particle_cases Hvp :=
  unfold own_entries, particle_entries, solid_entries, electrolyte_entries,
    conductivity_entries;
  cbv zeta;
  let vp := fresh "vp" in
  destruct Hvp as [vp ->];
  destruct (eq vp (Str "Fickian diffusion"));
    [|destruct (eq vp (Str "fast diffusion"))].

(** C1.  Whenever the constructor accepts its options, the registry keys
    are, in insertion order: the external-circuit roles, porosity, the
    tortuosity roles, convection, the two interfaces, the particle roles,
    the two electrodes, electrolyte diffusion and the conductivity roles,
    the thermal roles and the current-collector roles; the inherited
    setters are assumed to use role names that are unique within the
    build. *)
Theorem registry_canonical_order raw nm build s0 m :
  run (__init__ base raw nm build) s0 = (Ok tt, m) ->
  roles_unique (options m) ->
  dict_keys (submodels m) =
  dict_keys (external_circuit_submodels base (options m) (standard_parameters base))
  ++ ["porosity"]
  ++ dict_keys (tortuosity_submodels base (options m) (standard_parameters base))
  ++ ["convection"]
  ++ ["negative interface"; "positive interface"]
  ++ particle_roles (options m)
  ++ ["negative electrode"; "positive electrode"]
  ++ ("electrolyte diffusion" :: conductivity_roles (options m))
  ++ dict_keys (thermal_submodels base (options m) (standard_parameters base))
  ++ dict_keys (current_collector_submodels base (options m) (standard_parameters base)).
Proof.
  intros H Hu.
  apply __init___Ok in H as (o & _ & Ho & _ & _ & Hsub & _ & Hvs & _).
  subst o. rewrite Hsub, registry_all_entries by assumption.
  apply all_entries_keys, Hvs.
Qed.

(** C2.  With surface form "differential", the electrolyte-conductivity
    entries of the registry are exactly three, one per domain under the
    keys "negative/separator/positive electrolyte conductivity", each a
    FullDifferential surface-potential-form submodel, and there is no
    combined "electrolyte conductivity" entry. *)
Theorem differential_surface_form_entries raw nm build s0 m :
  run (__init__ base raw nm build) s0 = (Ok tt, m) ->
  options m !! "surface form" = Some (Str "differential") ->
  roles_unique (options m) ->
  List.filter is_conductivity (submodels m) =
    [("negative electrolyte conductivity",
      surf_form_FullDifferential (standard_parameters base) "Negative"
        (reactions_map base (options m)));
     ("separator electrolyte conductivity",
      surf_form_FullDifferential (standard_parameters base) "Separator"
        (reactions_map base (options m)));
     ("positive electrolyte conductivity",
      surf_form_FullDifferential (standard_parameters base) "Positive"
        (reactions_map base (options m)))]
  /\ dict_get "electrolyte conductivity" (submodels m) = None.
Proof.
  intros H Hsf Hu.
  apply __init___Ok in H as (o & _ & Ho & _ & _ & Hsub & Hvp & Hvs & _).
  subst o. rewrite Hsub, registry_all_entries by assumption. split.
  - rewrite filter_all_entries by apply is_conductivity_not_inherited.
    by_particle_cases Hvp; rewrite Hsf; reflexivity.
  - rewrite dict_get_all_entries by (assumption || own_role).
    by_particle_cases Hvp; rewrite Hsf; reflexivity.
Qed.

(** C3.  With particle "Fickian diffusion" and surface form [False]
    (whatever the dimensionality and convection options are), the registry
    holds exactly one negative-particle and one positive-particle submodel,
    both FickianManyParticles, exactly one conductivity entry, the combined
    "electrolyte conductivity" with the plain Full variant, and no
    per-domain conductivity entry. *)
Theorem fickian_plain_conductivity_entries raw nm build s0 m :
  run (__init__ base raw nm build) s0 = (Ok tt, m) ->
  options m !! "particle" = Some (Str "Fickian diffusion") ->
  options m !! "surface form" = Some (Bool false) ->
  roles_unique (options m) ->
  List.filter is_particle (submodels m) =
    [("negative particle",
      particle_FickianManyParticles (standard_parameters base) "Negative");
     ("positive particle",
      particle_FickianManyParticles (standard_parameters base) "Positive")]
  /\ List.filter is_conductivity (submodels m) =
    [("electrolyte conductivity",
      conductivity_Full (standard_parameters base)
        (reactions_map base (options m)))]
  /\ dict_get "negative electrolyte conductivity" (submodels m) = None
  /\ dict_get "separator electrolyte conductivity" (submodels m) = None
  /\ dict_get "positive electrolyte conductivity" (submodels m) = None.
Proof.
  intros H Hpa Hsf Hu.
  apply __init___Ok in H as (o & _ & Ho & _ & _ & Hsub & _ & Hvs & _).
  subst o. rewrite Hsub, registry_all_entries by assumption.
  rewrite !filter_all_entries
    by (apply is_particle_not_inherited || apply is_conductivity_not_inherited).
  rewrite !dict_get_all_entries by (assumption || own_role).
  unfold own_entries, particle_entries, solid_entries, electrolyte_entries,
    conductivity_entries.
  cbv zeta. rewrite Hpa, Hsf. repeat split; reflexivity.
Qed.

(** C9.  Whatever the options, the entry "electrolyte diffusion" is the
    Full Stefan-Maxwell diffusion submodel built from the model's parameter
    set and reactions map, and "negative interface" and "positive
    interface" are ButlerVolmer for the Negative and the Positive
    domain. *)
Theorem diffusion_and_interfaces_fixed raw nm build s0 m :
  run (__init__ base raw nm build) s0 = (Ok tt, m) ->
  roles_unique (options m) ->
  exists p r,
    param m = Some p /\ reactions m = Some r /\
    dict_get "electrolyte diffusion" (submodels m) = Some (diffusion_Full p r) /\
    dict_get "negative interface" (submodels m)
      = Some (interface_ButlerVolmer p "Negative" "lithium-ion main") /\
    dict_get "positive interface" (submodels m)
      = Some (interface_ButlerVolmer p "Positive" "lithium-ion main").
Proof.
  intros H Hu.
  apply __init___Ok in H as (o & _ & Ho & Hp & Hr & Hsub & Hvp & Hvs & _).
  subst o. exists (standard_parameters base), (reactions_map base (options m)).
  split; [exact Hp|]. split; [exact Hr|].
  rewrite Hsub, registry_all_entries by assumption.
  rewrite !dict_get_all_entries by (assumption || own_role).
  destruct Hvs as [vs Hvs].
  by_particle_cases Hvp; rewrite Hvs; destruct (is_False vs);
    repeat split; reflexivity.
Qed.

(** ** Unknown variants, freezing and the reactions map *)

(** C4, amended.  An unknown "particle" value raises nothing in
    [set_particle_submodel]: the method returns normally and leaves the
    model, registry included, as it was. *)
Theorem unknown_particle_registers_nothing s v :
  options s !! "particle" = Some v ->
  eq v (Str "Fickian diffusion") = false ->
  eq v (Str "fast diffusion") = false ->
  run set_particle_submodel s = (Ok tt, s).
Proof.
  intros Hv H1 H2. unfold set_particle_submodel.
  rewrite run_bind, options_getitem_run, Hv. cbv beta iota. rewrite H1.
  rewrite run_bind, options_getitem_run, Hv. cbv beta iota. rewrite H2.
  reflexivity.
Qed.

Lemma block_app (l1 l2 : list (Method unit)) s :
  run (block (l1 ++ l2)) s =
  match run (block l1) s with
  | (Ok _, s') => run (block l2) s'
  | (Raise e, s') => (Raise e, s')
  end.
Proof.
  revert s. induction l1 as [|x l1 IH]; intros s; [reflexivity|].
  unfold block in *. simpl for_each. rewrite !run_bind.
  destruct (run x s) as [[[]|e] s1]; [apply IH | reflexivity].
Qed.

(** C6, amended.  In every construction that returns, the first two
    statements of the body of [__init__] leave the external-circuit entries
    in the registry and no reactions map; the third statement computes the
    reactions map and registers nothing; every other entry is written by
    the statements after it, so the reactions map is in place before any
    submodel other than the external-circuit one is instantiated. *)
Theorem reactions_set_after_external_circuit raw nm build s0 m :
  run (__init__ base raw nm build) s0 = (Ok tt, m) ->
  exists s1 s2,
    run (block (take 2 (__init___body base raw nm build))) s0 = (Ok tt, s1) /\
    reactions s1 = None /\
    submodels s1 =
      dict_update
        (inherited_entries
           (external_circuit_submodels base (options m) (standard_parameters base)))
        [] /\
    run (block (take 3 (__init___body base raw nm build))) s0 = (Ok tt, s2) /\
    reactions s2 = Some (reactions_map base (options m)) /\
    submodels s2 = submodels s1 /\
    run (block (drop 3 (__init___body base raw nm build))) s2 = (Ok tt, m) /\
    submodels m =
      dict_update
        (later_entries (options m) (standard_parameters base)
           (reactions_map base (options m)))
        (submodels s1).
Proof.
  intros H. pose proof (__init___Ok _ _ _ _ _ H) as
    (o & Hval & Ho & _ & _ & Hsub & _ & _ & _).
  subst o.
  set (s1 := with_submodels
               (dict_update
                  (inherited_entries
                     (external_circuit_submodels base (options m)
                        (standard_parameters base))) [])
               (fresh_model (options m) nm (citations s0))).
  assert (H2 : run (block (take 2 (__init___body base raw nm build))) s0
               = (Ok tt, s1)).
  { unfold __init___body, block. cbn [take for_each].
    rewrite run_bind, BaseModel___init___run, Hval. cbv beta iota.
    rewrite run_bind. unfold set_external_circuit_submodel.
    erewrite register_inherited_run by reflexivity. reflexivity. }
  assert (H3 : run (block (take 3 (__init___body base raw nm build))) s0
               = (Ok tt, with_reactions s1)).
  { unfold __init___body, block. cbn [take for_each].
    rewrite run_bind, BaseModel___init___run, Hval. cbv beta iota.
    rewrite run_bind. unfold set_external_circuit_submodel.
    erewrite register_inherited_run by reflexivity. reflexivity. }
  unfold __init__ in H.
  rewrite <- (take_drop 3 (__init___body base raw nm build)), block_app, H3 in H.
  exists s1, (with_reactions s1).
  repeat apply conj; try reflexivity; try assumption.
  rewrite Hsub. unfold all_entries. cbv zeta.
  rewrite dict_update_app. reflexivity.
Qed.

(** C5.  Once [build_model] has returned, every write to the model, to the
    registry or to the workspace, raises [ImmutableModelError] and leaves
    the model as it was. *)
Theorem built_model_rejects_mutation s m mu :
  run (build_model base) s = (Ok tt, m) ->
  run (mutate mu) m = (Raise ImmutableModelError, m).
Proof.
  intros H. apply build_model_built in H.
  unfold mutate. rewrite run_bind. unfold get at 1, run at 1.
  cbv beta iota. rewrite H. reflexivity.
Qed.

(** The same for a model constructed with [build=True]. *)
Lemma constructed_model_rejects_mutation raw nm s0 m mu :
  run (__init__ base raw nm true) s0 = (Ok tt, m) ->
  run (mutate mu) m = (Raise ImmutableModelError, m).
Proof.
  intros H.
  apply __init___Ok in H as (o & _ & _ & _ & _ & _ & _ & _ & Hb).
  specialize (Hb eq_refl).
  unfold mutate. rewrite run_bind. unfold get at 1, run at 1.
  cbv beta iota. rewrite Hb. reflexivity.
Qed.

(** ** Default geometry *)

(** C7.  The default geometry depends on the "dimensionality" option
    alone: two models that agree on it get the same answer, and the values
    0, 1 and 2 select the three geometries. *)
Theorem default_geometry_by_dimensionality s s' :
  options s' !! "dimensionality" = options s !! "dimensionality" ->
  fst (run default_geometry s') = fst (run default_geometry s)
  /\ (options s !! "dimensionality" = Some (Int 0) ->
      run default_geometry s
      = (Ok (Some (pybamm_Geometry "1D macro" "1+1D micro")), s))
  /\ (options s !! "dimensionality" = Some (Int 1) ->
      run default_geometry s
      = (Ok (Some (pybamm_Geometry "1+1D macro" "(1+1)+1D micro")), s))
  /\ (options s !! "dimensionality" = Some (Int 2) ->
      run default_geometry s
      = (Ok (Some (pybamm_Geometry "2+1D macro" "(2+1)+1D micro")), s)).
Proof.
  intros Hsame. unfold default_geometry.
  rewrite !run_bind, !options_getitem_run, Hsame. split.
  - destruct (options s !! "dimensionality") as [v|]; [|reflexivity].
    cbv beta iota.
    destruct (eq v (Int 0)); [reflexivity|].
    destruct (eq v (Int 1)); [reflexivity|].
    destruct (eq v (Int 2)); reflexivity.
  - repeat split; intros ->; reflexivity.
Qed.

(** C10.  A "dimensionality" value that is not 0, 1 or 2 makes
    [default_geometry] return [None]: no error, no geometry. *)
Theorem default_geometry_out_of_range s v :
  options s !! "dimensionality" = Some v ->
  elem v [Int 0; Int 1; Int 2] = false ->
  run default_geometry s = (Ok None, s).
Proof.
  intros Hv Hout. unfold default_geometry.
  rewrite run_bind, options_getitem_run, Hv. cbv beta iota.
  unfold elem in Hout. simpl in Hout.
  apply orb_false_elim in Hout as [H0 Hout].
  apply orb_false_elim in Hout as [H1 Hout].
  apply orb_false_elim in Hout as [H2 _].
  rewrite H0, H1, H2. reflexivity.
Qed.

(** ** Relations that every run respects *)

#[local] Abbreviation respects := (respects (P:=P) (R:=R) (B:=B)).
#[local] Abbreviation registry_grows := (registry_grows (P:=P) (R:=R) (B:=B)).
#[local] Abbreviation constructed := (constructed base).

Section Respects.

Variable Rel : DFN -> DFN -> Prop.
Hypothesis Rel_refl : forall s, Rel s s.
Hypothesis Rel_trans : forall s1 s2 s3, Rel s1 s2 -> Rel s2 s3 -> Rel s1 s3.

Lemma respects_bind {A C : Type} (m : Method A) (k : A -> Method C) :
  respects Rel m -> (forall a, respects Rel (k a)) -> respects Rel (m ≫= k).
Proof.
  intros Hm Hk s res s'. rewrite run_bind.
  destruct (run m s) as [[a|e] s1] eqn:E; intros H.
  - eapply Rel_trans; [eapply Hm, E | eapply Hk, H].
  - injection H as <- <-. eapply Hm, E.
Qed.

Lemma respects_unchanged {A : Type} (m : Method A) :
  (forall s, snd (run m s) = s) -> respects Rel m.
Proof.
  intros Hm s res s' H. specialize (Hm s). rewrite H in Hm. simpl in Hm.
  subst s'. apply Rel_refl.
Qed.

Lemma respects_mret {A : Type} (a : A) : respects Rel (mret a).
Proof. apply respects_unchanged. reflexivity. Qed.

Lemma respects_raise {A : Type} (e : exn) : respects Rel (raise (A:=A) e).
Proof. apply respects_unchanged. reflexivity. Qed.

Lemma respects_get {A : Type} (f : DFN -> A) : respects Rel (get f).
Proof. apply respects_unchanged. reflexivity. Qed.

Lemma respects_options_getitem key : respects Rel (options_getitem key).
Proof.
  apply respects_unchanged. intros s. rewrite options_getitem_run.
  destruct (options s !! key); reflexivity.
Qed.

Lemma respects_self_param : respects Rel self_param.
Proof.
  apply respects_unchanged. intros s. unfold run, self_param.
  destruct (param s); reflexivity.
Qed.

Lemma respects_self_reactions : respects Rel self_reactions.
Proof.
  apply respects_unchanged. intros s. unfold run, self_reactions.
  destruct (reactions s); reflexivity.
Qed.

Lemma respects_modify (f : DFN -> DFN) :
  (forall s, Rel s (f s)) -> respects Rel (modify f).
Proof. intros Hf s res s' H. injection H as <- <-. apply Hf. Qed.

Lemma respects_mutate (mu : mutation P R B) :
  (forall s, Rel s (apply_mutation mu s)) -> respects Rel (mutate mu).
Proof.
  intros Hmu. unfold mutate. apply respects_bind; [apply respects_get|].
  intros [|]; [apply respects_raise | apply respects_modify, Hmu].
Qed.

Lemma respects_for_each {A : Type} (xs : list A) (body : A -> Method unit) :
  (forall x, respects Rel (body x)) -> respects Rel (for_each xs body).
Proof.
  intros Hb. induction xs as [|x xs IH]; simpl.
  - apply respects_mret.
  - apply respects_bind; [apply Hb | intros _; exact IH].
Qed.

End Respects.

Lemma registry_grows_refl s : registry_grows s s.
Proof. split; [symmetry; apply with_submodels_id | reflexivity]. Qed.

Lemma registry_grows_trans s1 s2 s3 :
  registry_grows s1 s2 -> registry_grows s2 s3 -> registry_grows s1 s3.
Proof.
  intros [E1 P1] [E2 P2]. split.
  - rewrite E2 at 1. rewrite E1. reflexivity.
  - etransitivity; eassumption.
Qed.

Lemma respects_setitem role (sub : submodel) :
  respects registry_grows (submodels_setitem role sub).
Proof.
  apply respects_mutate.
  - apply registry_grows_refl.
  - apply registry_grows_trans.
  - intros s. split; [reflexivity | apply dict_set_prefix].
Qed.

(** Decomposes a method body into its reads, branches and assignments. *)
Ltac walk Hrefl Htrans leaf :=
  repeat first
    [ leaf
    | apply (respects_bind _ Htrans); [|intros ?]
    | apply (respects_options_getitem _ Hrefl)
    | apply (respects_self_param _ Hrefl)
    | apply (respects_self_reactions _ Hrefl)
    | apply (respects_get _ Hrefl)
    | apply (respects_mret _ Hrefl)
    | apply (respects_for_each _ Hrefl Htrans); intros ?
    | match goal with
      | |- respects _ (if ?c then _ else _) => destruct c
      | |- respects _ (let (_, _) := ?x in _) => destruct x
      end ].

Ltac walk_registry :=
  walk registry_grows_refl registry_grows_trans ltac:(apply respects_setitem).

(** ** The setters of [dfn.py], one at a time *)

(** X1.  Whether it returns or raises, a setter of [dfn.py] changes nothing
    but the registry, and it never removes or moves an entry that was
    already there: the old role names stay a prefix of the new ones. *)
Theorem setters_only_grow_registry :
  respects registry_grows set_porosity_submodel
  /\ respects registry_grows set_convection_submodel
  /\ respects registry_grows set_interfacial_submodel
  /\ respects registry_grows set_particle_submodel
  /\ respects registry_grows set_solid_submodel
  /\ respects registry_grows set_electrolyte_submodel.
Proof.
  unfold set_porosity_submodel, set_convection_submodel,
    set_interfacial_submodel, set_particle_submodel, set_solid_submodel,
    set_electrolyte_submodel.
  repeat apply conj; walk_registry.
Qed.

Lemma concrete_NoDup (l : list string) : bool_decide (NoDup l) = true -> NoDup l.
Proof. intros H. apply (bool_decide_unpack _). rewrite H. exact I. Qed.

Lemma particle_entries_NoDup o p : NoDup (dict_keys (particle_entries o p)).
Proof.
  rewrite particle_entries_keys. unfold particle_roles.
  destruct (o !! "particle") as [v|]; [|constructor].
  destruct (_ || _)%bool; [|constructor].
  apply concrete_NoDup. vm_compute. reflexivity.
Qed.

Lemma solid_entries_NoDup o p r : NoDup (dict_keys (solid_entries o p r)).
Proof.
  unfold solid_entries. destruct (o !! "surface form") as [v|]; [|constructor].
  destruct (is_False v); apply concrete_NoDup; vm_compute; reflexivity.
Qed.

Lemma electrolyte_entries_NoDup o p r :
  NoDup (dict_keys (electrolyte_entries o p r)).
Proof.
  unfold electrolyte_entries.
  change (dict_keys (?e :: ?l)) with (fst e :: dict_keys l).
  rewrite conductivity_entries_keys. unfold conductivity_roles. simpl fst.
  destruct (o !! "surface form") as [v|];
    [destruct (is_False v); [|destruct (_ || _)%bool]|];
    apply concrete_NoDup; vm_compute; reflexivity.
Qed.

Ltac rerun lem Hnd :=
  rewrite run_bind; erewrite lem by eassumption;
  try match goal with
      | |- context [options ?s !! ?k] =>
          let E := fresh "E" in
          destruct (options s !! k) eqn:E; [|reflexivity]
      end;
  cbv beta iota; erewrite lem by (simpl; eassumption);
  cbn [options submodels with_submodels];
  try match goal with E : _ !! _ = Some _ |- _ => rewrite E end;
  rewrite with_submodels_twice, dict_update_idem by Hnd;
  reflexivity.

(** X2.  On an unbuilt model with parameters and reactions in place,
    calling a setter of [dfn.py] a second time changes nothing: the run of
    two calls ends in the same result and the same model as one call. *)
Theorem setters_idempotent s p r :
  built s = false -> param s = Some p -> reactions s = Some r ->
  run (set_porosity_submodel ;; set_porosity_submodel) s
    = run set_porosity_submodel s
  /\ run (set_convection_submodel ;; set_convection_submodel) s
    = run set_convection_submodel s
  /\ run (set_interfacial_submodel ;; set_interfacial_submodel) s
    = run set_interfacial_submodel s
  /\ run (set_particle_submodel ;; set_particle_submodel) s
    = run set_particle_submodel s
  /\ run (set_solid_submodel ;; set_solid_submodel) s
    = run set_solid_submodel s
  /\ run (set_electrolyte_submodel ;; set_electrolyte_submodel) s
    = run set_electrolyte_submodel s.
Proof.
  intros Hb Hp Hr. repeat apply conj.
  - rerun set_porosity_run ltac:(apply concrete_NoDup; vm_compute; reflexivity).
  - rerun set_convection_run ltac:(apply concrete_NoDup; vm_compute; reflexivity).
  - rerun set_interfacial_run ltac:(apply concrete_NoDup; vm_compute; reflexivity).
  - rerun set_particle_run ltac:(apply particle_entries_NoDup).
  - rerun set_solid_run ltac:(apply solid_entries_NoDup).
  - rerun set_electrolyte_run ltac:(apply electrolyte_entries_NoDup).
Qed.

(** X3.  A missing option key surfaces as [KeyError] from the setter that
    reads it, each key on its own.  Without "particle",
    [set_particle_submodel] raises and leaves the model as it was, whatever
    its state; without "surface form" so does [set_solid_submodel], while
    [set_electrolyte_submodel], on an unbuilt model with parameters and
    reactions in place, has already written "electrolyte diffusion" when it
    reads the key: the entry stays in the registry although the call
    raised. *)
Theorem missing_option_keys s :
  (options s !! "particle" = None ->
   run set_particle_submodel s = (Raise (KeyError "particle"), s))
  /\ (options s !! "surface form" = None ->
      run set_solid_submodel s = (Raise (KeyError "surface form"), s)
      /\ forall p r,
           built s = false -> param s = Some p -> reactions s = Some r ->
           exists s',
             run set_electrolyte_submodel s
               = (Raise (KeyError "surface form"), s')
             /\ dict_get "electrolyte diffusion" (submodels s')
                = Some (diffusion_Full p r)
             /\ registry_grows s s').
Proof.
  split.
  - intros Hpa. unfold set_particle_submodel.
    rewrite run_bind, options_getitem_run, Hpa. reflexivity.
  - intros Hsf. split.
    + unfold set_solid_submodel.
      rewrite run_bind, options_getitem_run, Hsf. reflexivity.
    + intros p r Hb Hp Hr. eexists.
      rewrite (set_electrolyte_run s p r Hb Hp Hr), Hsf.
      split; [reflexivity|]. split.
      * apply dict_get_set_eq.
      * split; [reflexivity | apply dict_set_prefix].
Qed.

(** X4.  Before [set_reactions] has run, [set_electrolyte_submodel] raises
    [AttributeError] and writes nothing, and so does [set_solid_submodel]
    when "surface form" is [False]; for any other "surface form" value
    [set_solid_submodel] does not read the reactions map and registers the
    two SurfaceForm electrodes. *)
Theorem setters_before_set_reactions s p v :
  built s = false -> param s = Some p -> reactions s = None ->
  options s !! "surface form" = Some v ->
  run set_electrolyte_submodel s = (Raise (AttributeError "reactions"), s)
  /\ run set_solid_submodel s =
     if is_False v then (Raise (AttributeError "reactions"), s)
     else (Ok tt,
           with_submodels
             (dict_update
                [("negative electrode", electrode_ohm_SurfaceForm p "Negative");
                 ("positive electrode", electrode_ohm_SurfaceForm p "Positive")]
                (submodels s)) s).
Proof.
  intros Hb Hp Hr Hv. split.
  - unfold set_electrolyte_submodel. exec.
    unfold self_reactions at 1, run at 1. rewrite Hr. reflexivity.
  - unfold set_solid_submodel. exec. rewrite Hv. cbv beta iota.
    destruct (is_False v); exec.
    + unfold self_reactions at 1, run at 1. rewrite Hr. reflexivity.
    + reflexivity.
Qed.

(** X5.  When the "dimensionality" option is present, [default_geometry]
    returns without raising and without changing the model, and the result
    is a geometry exactly when the value compares equal to 0, 1 or 2 (so
    [False] and [True] count as 0 and 1). *)
Theorem default_geometry_defined_iff s v :
  options s !! "dimensionality" = Some v ->
  exists g,
    run default_geometry s = (Ok g, s)
    /\ (is_Some g <-> elem v [Int 0; Int 1; Int 2] = true).
Proof.
  intros Hv. unfold default_geometry.
  rewrite run_bind, options_getitem_run, Hv. cbv beta iota.
  unfold elem. simpl existsb.
  destruct (eq v (Int 0)); [|destruct (eq v (Int 1)); [|destruct (eq v (Int 2))]];
    eexists; (split; [reflexivity|]); simpl;
    (split; [intros H; first [reflexivity | destruct H as [? H]; discriminate H]
            | intros H; first [eexists; reflexivity | discriminate H]]).
Qed.

(** ** The constructor as a whole *)

Lemma __init___unbuilt_run raw nm s0 o :
  validate_options base raw = Ok o ->
  is_Some (o !! "particle") -> is_Some (o !! "surface form") ->
  run (__init__ base raw nm false) s0 = (Ok tt, constructed o nm (citations s0)).
Proof.
  intros Hval Hvp Hvs.
  rewrite __init___split, run_bind, before_set_reactions_run, Hval.
  cbv beta iota. rewrite run_bind, set_reactions_run. cbv beta iota.
  erewrite after_set_reactions_run; try reflexivity; try assumption.
  unfold constructed, all_entries. cbv zeta. rewrite dict_update_app.
  reflexivity.
Qed.

(** X7.  A construction that returns has read both option keys: the
    model's options contain "particle" and "surface form", with and without
    building.  Options that lack one of them never yield a model. *)
Theorem construction_needs_option_keys raw nm build s0 m :
  run (__init__ base raw nm build) s0 = (Ok tt, m) ->
  is_Some (options m !! "particle") /\ is_Some (options m !! "surface form").
Proof.
  intros H.
  apply __init___Ok in H as (o & _ & Ho & _ & _ & _ & Hvp & Hvs & _).
  subst o. split; assumption.
Qed.

(** X9.  A model constructed with [build=False] is not built, and a
    submodel can still be changed: assigning a role returns normally, the
    role then holds the new submodel, every other role keeps its submodel,
    and no role is lost or moved. *)
Theorem unbuilt_model_accepts_changes raw nm s0 m role (sub : submodel) :
  run (__init__ base raw nm false) s0 = (Ok tt, m) ->
  built m = false
  /\ exists m',
       run (submodels_setitem role sub) m = (Ok tt, m')
       /\ dict_get role (submodels m') = Some sub
       /\ (forall k, k <> role ->
             dict_get k (submodels m') = dict_get k (submodels m))
       /\ registry_grows m m'.
Proof.
  intros H.
  pose proof (__init___Ok _ _ _ _ _ H) as (o & Hval & _ & _ & _ & _ & Hvp & Hvs & _).
  rewrite (__init___unbuilt_run raw nm s0 o Hval Hvp Hvs) in H.
  injection H as <-. split; [reflexivity|].
  eexists. rewrite setitem_run by reflexivity. split; [reflexivity|].
  cbn [submodels with_submodels]. split; [apply dict_get_set_eq|]. split.
  - intros k Hk. apply dict_get_set_ne. congruence.
  - split; [reflexivity | apply dict_set_prefix].
Qed.

(** X10.  With surface form "algebraic" the conductivity entries of the
    registry are exactly three, one per domain, each a FullAlgebraic
    surface-potential-form submodel, and there is no combined "electrolyte
    conductivity" entry. *)
Theorem algebraic_surface_form_entries raw nm build s0 m :
  run (__init__ base raw nm build) s0 = (Ok tt, m) ->
  options m !! "surface form" = Some (Str "algebraic") ->
  roles_unique (options m) ->
  List.filter is_conductivity (submodels m) =
    [("negative electrolyte conductivity",
      surf_form_FullAlgebraic (standard_parameters base) "Negative"
        (reactions_map base (options m)));
     ("separator electrolyte conductivity",
      surf_form_FullAlgebraic (standard_parameters base) "Separator"
        (reactions_map base (options m)));
     ("positive electrolyte conductivity",
      surf_form_FullAlgebraic (standard_parameters base) "Positive"
        (reactions_map base (options m)))]
  /\ dict_get "electrolyte conductivity" (submodels m) = None.
Proof.
  intros H Hsf Hu.
  apply __init___Ok in H as (o & _ & Ho & _ & _ & Hsub & Hvp & Hvs & _).
  subst o. rewrite Hsub, registry_all_entries by assumption. split.
  - rewrite filter_all_entries by apply is_conductivity_not_inherited.
    by_particle_cases Hvp; rewrite Hsf; reflexivity.
  - rewrite dict_get_all_entries by (assumption || own_role).
    by_particle_cases Hvp; rewrite Hsf; reflexivity.
Qed.

(** X11.  With particle "fast diffusion" the particle entries of the
    registry are exactly two, "negative particle" and "positive particle",
    both FastManyParticles. *)
Theorem fast_diffusion_entries raw nm build s0 m :
  run (__init__ base raw nm build) s0 = (Ok tt, m) ->
  options m !! "particle" = Some (Str "fast diffusion") ->
  roles_unique (options m) ->
  List.filter is_particle (submodels m) =
    [("negative particle",
      particle_FastManyParticles (standard_parameters base) "Negative");
     ("positive particle",
      particle_FastManyParticles (standard_parameters base) "Positive")].
Proof.
  intros H Hpa Hu.
  apply __init___Ok in H as (o & _ & Ho & _ & _ & Hsub & _ & Hvs & _).
  subst o. rewrite Hsub, registry_all_entries by assumption.
  rewrite filter_all_entries by apply is_particle_not_inherited.
  unfold own_entries, particle_entries, solid_entries, electrolyte_entries,
    conductivity_entries.
  cbv zeta. rewrite Hpa. destruct Hvs as [vs ->]. simpl.
  destruct (is_False vs); [reflexivity|].
  destruct (eq vs (Str "differential")); [reflexivity|].
  destruct (eq vs (Str "algebraic")); reflexivity.
Qed.

(** X12.  A "surface form" value that is not [False], "differential" or
    "algebraic" and still reaches the setters yields a registry with no
    electrolyte-conductivity submodel at all: none of the four conductivity
    roles is present. *)
Theorem unknown_surface_form_no_conductivity raw nm build s0 m v :
  run (__init__ base raw nm build) s0 = (Ok tt, m) ->
  options m !! "surface form" = Some v ->
  is_False v = false ->
  eq v (Str "differential") = false ->
  eq v (Str "algebraic") = false ->
  roles_unique (options m) ->
  List.filter is_conductivity (submodels m) = []
  /\ dict_get "electrolyte conductivity" (submodels m) = None
  /\ dict_get "negative electrolyte conductivity" (submodels m) = None
  /\ dict_get "separator electrolyte conductivity" (submodels m) = None
  /\ dict_get "positive electrolyte conductivity" (submodels m) = None.
Proof.
  intros H Hsf Hf Hd Ha Hu.
  apply __init___Ok in H as (o & _ & Ho & _ & _ & Hsub & Hvp & Hvs & _).
  subst o. rewrite Hsub, registry_all_entries by assumption.
  rewrite filter_all_entries by apply is_conductivity_not_inherited.
  rewrite !dict_get_all_entries by (assumption || own_role).
  by_particle_cases Hvp; rewrite Hsf, Hf, ?Hd, ?Ha; simpl; rewrite ?Hd, ?Ha;
    repeat apply conj; reflexivity.
Qed.

(** X13.  The two electrode entries follow "surface form" alone: Ohm's-law
    Full submodels built with the model's reactions map when the value is
    [False] itself, SurfaceForm submodels for every other value (0 and
    [None] included, since the test is identity with [False]). *)
Theorem electrodes_follow_surface_form raw nm build s0 m v :
  run (__init__ base raw nm build) s0 = (Ok tt, m) ->
  options m !! "surface form" = Some v ->
  roles_unique (options m) ->
  dict_get "negative electrode" (submodels m) =
    Some (if is_False v
          then electrode_ohm_Full (standard_parameters base) "Negative"
                 (reactions_map base (options m))
          else electrode_ohm_SurfaceForm (standard_parameters base) "Negative")
  /\ dict_get "positive electrode" (submodels m) =
    Some (if is_False v
          then electrode_ohm_Full (standard_parameters base) "Positive"
                 (reactions_map base (options m))
          else electrode_ohm_SurfaceForm (standard_parameters base) "Positive").
Proof.
  intros H Hsf Hu.
  apply __init___Ok in H as (o & _ & Ho & _ & _ & Hsub & Hvp & Hvs & _).
  subst o. rewrite Hsub, registry_all_entries by assumption.
  rewrite !dict_get_all_entries by (assumption || own_role).
  by_particle_cases Hvp; rewrite Hsf; destruct (is_False v);
    split; reflexivity.
Qed.

(** X14.  The "porosity" and "convection" entries do not depend on any
    option: whatever the options say, "convection" included, they are the
    Constant porosity and the NoConvection submodel. *)
Theorem porosity_and_convection_fixed raw nm build s0 m :
  run (__init__ base raw nm build) s0 = (Ok tt, m) ->
  roles_unique (options m) ->
  dict_get "porosity" (submodels m)
    = Some (porosity_Constant (standard_parameters base))
  /\ dict_get "convection" (submodels m)
    = Some (convection_NoConvection (standard_parameters base)).
Proof.
  intros H Hu.
  apply __init___Ok in H as (o & _ & Ho & _ & _ & Hsub & _ & Hvs & _).
  subst o. rewrite Hsub, registry_all_entries by assumption.
  rewrite !dict_get_all_entries by (assumption || own_role).
  split; reflexivity.
Qed.

End Registration.

(** ** The property functions take only concentration and temperature *)

Module Landesfeind2019_facts.

Import Landesfeind2019.

(** C8.  The conductivity and the diffusivity function depend on [c_e] and
    [T] only.  From the same outside state, two calls with equal [c_e] and
    [T] return the same value and leave the same state whatever is passed
    for [T_inf], [E_k_e] and [R_g]; and the functions keep no state of
    their own: when the value of the base correlation does not depend on
    the outside state, two calls with equal [c_e] and [T] return the same
    value from any two states. *)
Theorem property_functions_ignore_extra_arguments {A W : Type}
    (conductivity_base diffusivity_base : A -> A -> list decimal -> W -> A * W)
    (c_e T T_inf T_inf' E_k_e E_k_e' R_g R_g' : A) :
  (forall c t cs w w',
     fst (conductivity_base c t cs w) = fst (conductivity_base c t cs w')) ->
  (forall c t cs w w',
     fst (diffusivity_base c t cs w) = fst (diffusivity_base c t cs w')) ->
  (forall w,
     electrolyte_conductivity_Landesfeind2019_EC_DMC_1_1
       conductivity_base c_e T T_inf E_k_e R_g w
     = electrolyte_conductivity_Landesfeind2019_EC_DMC_1_1
         conductivity_base c_e T T_inf' E_k_e' R_g' w)
  /\ (forall w,
     electrolyte_diffusivity_Landesfeind2019_EC_DMC_1_1
       diffusivity_base c_e T T_inf E_k_e R_g w
     = electrolyte_diffusivity_Landesfeind2019_EC_DMC_1_1
         diffusivity_base c_e T T_inf' E_k_e' R_g' w)
  /\ (forall w w',
     fst (electrolyte_conductivity_Landesfeind2019_EC_DMC_1_1
            conductivity_base c_e T T_inf E_k_e R_g w)
     = fst (electrolyte_conductivity_Landesfeind2019_EC_DMC_1_1
              conductivity_base c_e T T_inf' E_k_e' R_g' w'))
  /\ (forall w w',
     fst (electrolyte_diffusivity_Landesfeind2019_EC_DMC_1_1
            diffusivity_base c_e T T_inf E_k_e R_g w)
     = fst (electrolyte_diffusivity_Landesfeind2019_EC_DMC_1_1
              diffusivity_base c_e T T_inf' E_k_e' R_g' w')).
Proof.
  intros Hc Hd.
  unfold electrolyte_conductivity_Landesfeind2019_EC_DMC_1_1,
    electrolyte_diffusivity_Landesfeind2019_EC_DMC_1_1.
  cbv zeta. repeat apply conj.
  - intros w. reflexivity.
  - intros w. reflexivity.
  - intros w w'. apply Hc.
  - intros w w'. apply Hd.
Qed.

Lemma property_functions_ignore_extra_arguments_witness :
  fst (electrolyte_conductivity_Landesfeind2019_EC_DMC_1_1
         counting_base 1000 298 298 17100 8314 0%nat)
  = fst (electrolyte_conductivity_Landesfeind2019_EC_DMC_1_1
           counting_base 1000 298 0 0 0 5%nat)
  /\ fst (electrolyte_diffusivity_Landesfeind2019_EC_DMC_1_1
            counting_base 1000 298 298 17100 8314 0%nat)
     = fst (electrolyte_diffusivity_Landesfeind2019_EC_DMC_1_1
              counting_base 1000 298 0 0 0 5%nat).
Proof.
  destruct (property_functions_ignore_extra_arguments
              counting_base counting_base 1000 298 298 0 17100 0 8314 0)
    as (_ & _ & Hc & Hd).
  - intros c t cs w w'. reflexivity.
  - intros c t cs w w'. reflexivity.
  - split; [apply Hc | apply Hd].
Defined.

End Landesfeind2019_facts.

(** ** Running the model *)

Module Examples.

Import Demo.

Ltac evaluate := vm_compute; reflexivity.

Lemma demo_roles_unique o : roles_unique base o.
Proof.
  unfold roles_unique. apply (bool_decide_unpack _). vm_compute. exact I.
Defined.

Lemma registry_canonical_order_witness :
  dict_keys (submodels (snd (new None true))) =
  ["external circuit"; "porosity"; "electrolyte tortuosity";
   "electrode tortuosity"; "convection"; "negative interface";
   "positive interface"; "negative particle"; "positive particle";
   "negative electrode"; "positive electrode"; "electrolyte diffusion";
   "electrolyte conductivity"; "thermal"; "current collector"].
Proof.
  rewrite (registry_canonical_order base None default_name true (object_new [])
             (snd (new None true))).
  - evaluate.
  - evaluate.
  - apply demo_roles_unique.
Defined.

Lemma differential_surface_form_entries_witness :
  List.filter is_conductivity
    (submodels (snd (new (Some differential_options) true))) =
    [("negative electrolyte conductivity",
      surf_form_FullDifferential tt "Negative" "main");
     ("separator electrolyte conductivity",
      surf_form_FullDifferential tt "Separator" "main");
     ("positive electrolyte conductivity",
      surf_form_FullDifferential tt "Positive" "main")]
  /\ dict_get "electrolyte conductivity"
       (submodels (snd (new (Some differential_options) true))) = None.
Proof.
  apply (differential_surface_form_entries base (Some differential_options)
           default_name true (object_new [])
           (snd (new (Some differential_options) true))).
  - evaluate.
  - evaluate.
  - apply demo_roles_unique.
Defined.

Lemma fickian_plain_conductivity_entries_witness :
  List.filter is_particle
    (submodels (snd (new (Some scenario_options) true))) =
    [("negative particle", particle_FickianManyParticles tt "Negative");
     ("positive particle", particle_FickianManyParticles tt "Positive")]
  /\ List.filter is_conductivity
       (submodels (snd (new (Some scenario_options) true))) =
    [("electrolyte conductivity", conductivity_Full tt "main")]
  /\ dict_get "negative electrolyte conductivity"
       (submodels (snd (new (Some scenario_options) true))) = None
  /\ dict_get "separator electrolyte conductivity"
       (submodels (snd (new (Some scenario_options) true))) = None
  /\ dict_get "positive electrolyte conductivity"
       (submodels (snd (new (Some scenario_options) true))) = None.
Proof.
  apply (fickian_plain_conductivity_entries base (Some scenario_options)
           default_name true (object_new [])
           (snd (new (Some scenario_options) true))).
  - evaluate.
  - evaluate.
  - evaluate.
  - apply demo_roles_unique.
Defined.

Lemma diffusion_and_interfaces_fixed_witness :
  exists p r,
    param (snd (new (Some differential_options) false)) = Some p /\
    reactions (snd (new (Some differential_options) false)) = Some r /\
    dict_get "electrolyte diffusion"
      (submodels (snd (new (Some differential_options) false)))
      = Some (diffusion_Full p r) /\
    dict_get "negative interface"
      (submodels (snd (new (Some differential_options) false)))
      = Some (interface_ButlerVolmer p "Negative" "lithium-ion main") /\
    dict_get "positive interface"
      (submodels (snd (new (Some differential_options) false)))
      = Some (interface_ButlerVolmer p "Positive" "lithium-ion main").
Proof.
  apply (diffusion_and_interfaces_fixed base (Some differential_options)
           default_name false (object_new [])).
  - evaluate.
  - apply demo_roles_unique.
Defined.

(** With an unknown "particle" value [set_particle_submodel] returns
    normally, and the registry has no particle entry afterwards: the
    dispatch does not treat the unknown variant as fatal. *)
Lemma unknown_particle_not_fatal :
  run set_particle_submodel odd_particle_model = (Ok tt, odd_particle_model)
  /\ dict_get "negative particle" (submodels odd_particle_model) = None
  /\ dict_get "positive particle" (submodels odd_particle_model) = None
  /\ ~ @unknown_particle_is_fatal unit string string.
Proof.
  assert (Hrun : run set_particle_submodel odd_particle_model
                 = (Ok tt, odd_particle_model)) by evaluate.
  repeat split; try evaluate.
  intros Hfatal.
  destruct (Hfatal odd_particle_model (Str "no diffusion"))
    as (e & s' & Hraise); try evaluate.
  rewrite Hrun in Hraise. discriminate Hraise.
Qed.

Lemma unknown_particle_registers_nothing_witness :
  run set_particle_submodel odd_particle_model = (Ok tt, odd_particle_model).
Proof.
  apply (unknown_particle_registers_nothing odd_particle_model
           (Str "no diffusion")); evaluate.
Defined.

(** After the second statement of the constructor the external-circuit
    submodel is in the registry and no reactions map exists yet. *)
Lemma reactions_not_first :
  (exists s,
     run (block (take 2 (__init___body base None default_name true)))
         (object_new []) = (Ok tt, s)
     /\ submodels s = [("external circuit", inherited "CurrentControl")]
     /\ reactions s = None)
  /\ ~ reactions_before_any_submodel base.
Proof.
  split.
  - eexists. split; [evaluate|]. split; evaluate.
  - intros Hfirst.
    specialize (Hfirst None default_name true 2%nat (object_new []) _
                  (le_S _ _ (le_n 1)) eq_refl eq_refl).
    vm_compute in Hfirst. discriminate Hfirst.
Qed.

Lemma reactions_set_after_external_circuit_witness :
  exists s1 s2,
    run (block (take 2 (__init___body base None default_name true)))
        (object_new []) = (Ok tt, s1) /\
    reactions s1 = None /\
    submodels s1 = [("external circuit", inherited "CurrentControl")] /\
    run (block (take 3 (__init___body base None default_name true)))
        (object_new []) = (Ok tt, s2) /\
    reactions s2 = Some "main" /\
    submodels s2 = submodels s1 /\
    run (block (drop 3 (__init___body base None default_name true))) s2
      = (Ok tt, snd (new None true)) /\
    dict_keys (submodels (snd (new None true))) =
      "external circuit" ::
      dict_keys (later_entries base defaults tt "main").
Proof.
  destruct (reactions_set_after_external_circuit base None default_name true
              (object_new []) (snd (new None true)))
    as (s1 & s2 & H1 & H2 & H3 & H4 & H5 & H6 & H7 & H8); [evaluate|].
  exists s1, s2. repeat apply conj; try assumption;
    first [rewrite H3; evaluate | rewrite H5; evaluate | evaluate].
Defined.

Lemma built_model_rejects_mutation_witness :
  run (mutate (set_submodel "porosity" (convection_NoConvection tt)))
      (snd (run (build_model base) (snd (new None false))))
  = (Raise ImmutableModelError,
     snd (run (build_model base) (snd (new None false)))).
Proof.
  apply (built_model_rejects_mutation base (snd (new None false))).
  evaluate.
Defined.

Lemma default_geometry_by_dimensionality_witness :
  fst (run default_geometry flat_thermal_model) = fst (run default_geometry flat_model)
  /\ run default_geometry flat_model
     = (Ok (Some (pybamm_Geometry "1D macro" "1+1D micro")), flat_model).
Proof.
  destruct (default_geometry_by_dimensionality flat_model flat_thermal_model)
    as (Hsame & H0 & _); [evaluate|].
  split; [exact Hsame | apply H0; evaluate].
Defined.

Lemma default_geometry_out_of_range_witness :
  run default_geometry cubic_model = (Ok None, cubic_model).
Proof.
  apply (default_geometry_out_of_range cubic_model (Int 3)); evaluate.
Defined.

Lemma lax_roles_unique o : roles_unique lax_base o.
Proof.
  unfold roles_unique. apply (bool_decide_unpack _). vm_compute. exact I.
Defined.

Lemma setters_idempotent_witness :
  run (set_electrolyte_submodel ;; set_electrolyte_submodel) (ready_model defaults)
  = run set_electrolyte_submodel (ready_model defaults).
Proof.
  apply (setters_idempotent (ready_model defaults) tt "main"); evaluate.
Defined.

Lemma missing_option_keys_witness :
  run set_particle_submodel (ready_model surface_only_options)
    = (Raise (KeyError "particle"), ready_model surface_only_options)
  /\ exists s',
       run set_electrolyte_submodel (ready_model particle_only_options)
         = (Raise (KeyError "surface form"), s')
       /\ dict_get "electrolyte diffusion" (submodels s')
          = Some (diffusion_Full tt "main").
Proof.
  split.
  - apply (missing_option_keys (ready_model surface_only_options)). evaluate.
  - destruct (missing_option_keys (ready_model particle_only_options))
      as (_ & H).
    destruct H as (_ & H); [evaluate|].
    destruct (H tt "main") as (s' & H1 & H2 & _); try evaluate.
    exists s'. split; assumption.
Defined.

Lemma setters_before_set_reactions_witness :
  run set_electrolyte_submodel (bare_model (<["surface form" := Int 0]> ∅))
    = (Raise (AttributeError "reactions"),
       bare_model (<["surface form" := Int 0]> ∅))
  /\ dict_keys (submodels (snd (run set_solid_submodel
        (bare_model (<["surface form" := Int 0]> ∅)))))
     = ["negative electrode"; "positive electrode"].
Proof.
  destruct (setters_before_set_reactions
              (bare_model (<["surface form" := Int 0]> ∅)) tt (Int 0))
    as [H1 H2]; try evaluate.
  split; [exact H1 | rewrite H2; evaluate].
Defined.

Lemma default_geometry_defined_iff_witness :
  exists g,
    run default_geometry (bare_model (<["dimensionality" := Bool true]> ∅))
      = (Ok g, bare_model (<["dimensionality" := Bool true]> ∅))
    /\ (is_Some g <-> elem (Bool true) [Int 0; Int 1; Int 2] = true).
Proof.
  apply (default_geometry_defined_iff
           (bare_model (<["dimensionality" := Bool true]> ∅)) (Bool true)).
  evaluate.
Defined.

Lemma construction_needs_option_keys_witness :
  is_Some (options (snd (new None true)) !! "particle")
  /\ is_Some (options (snd (new None true)) !! "surface form").
Proof.
  apply (construction_needs_option_keys base None default_name true
           (object_new [])).
  evaluate.
Defined.

Lemma unbuilt_model_accepts_changes_witness :
  built (snd (new None false)) = false
  /\ exists m',
       run (submodels_setitem "convection" (porosity_Constant tt))
           (snd (new None false)) = (Ok tt, m')
       /\ dict_get "convection" (submodels m') = Some (porosity_Constant tt).
Proof.
  destruct (unbuilt_model_accepts_changes base None default_name (object_new [])
              (snd (new None false)) "convection" (porosity_Constant tt))
    as (Hb & m' & H1 & H2 & _); [evaluate|].
  split; [exact Hb|]. exists m'. split; assumption.
Defined.

Lemma algebraic_surface_form_entries_witness :
  List.filter is_conductivity
    (submodels (snd (new (Some algebraic_options) true))) =
    [("negative electrolyte conductivity",
      surf_form_FullAlgebraic tt "Negative" "main");
     ("separator electrolyte conductivity",
      surf_form_FullAlgebraic tt "Separator" "main");
     ("positive electrolyte conductivity",
      surf_form_FullAlgebraic tt "Positive" "main")]
  /\ dict_get "electrolyte conductivity"
       (submodels (snd (new (Some algebraic_options) true))) = None.
Proof.
  apply (algebraic_surface_form_entries base (Some algebraic_options)
           default_name true (object_new [])
           (snd (new (Some algebraic_options) true))).
  - evaluate.
  - evaluate.
  - apply demo_roles_unique.
Defined.

Lemma fast_diffusion_entries_witness :
  List.filter is_particle (submodels (snd (new (Some fast_options) true))) =
    [("negative particle", particle_FastManyParticles tt "Negative");
     ("positive particle", particle_FastManyParticles tt "Positive")].
Proof.
  apply (fast_diffusion_entries base (Some fast_options) default_name true
           (object_new []) (snd (new (Some fast_options) true))).
  - evaluate.
  - evaluate.
  - apply demo_roles_unique.
Defined.

Lemma unknown_surface_form_no_conductivity_witness :
  List.filter is_conductivity
    (submodels (snd (new_lax (Some odd_surface_options) false))) = []
  /\ dict_get "negative electrode"
       (submodels (snd (new_lax (Some odd_surface_options) false)))
     = Some (electrode_ohm_SurfaceForm tt "Negative").
Proof.
  destruct (unknown_surface_form_no_conductivity lax_base
              (Some odd_surface_options) default_name false (object_new [])
              (snd (new_lax (Some odd_surface_options) false)) (Str "implicit"))
    as (H & _); try evaluate; [apply lax_roles_unique|].
  split; [exact H | evaluate].
Defined.

Lemma electrodes_follow_surface_form_witness :
  dict_get "negative electrode"
    (submodels (snd (new (Some differential_options) false)))
  = Some (electrode_ohm_SurfaceForm tt "Negative")
  /\ dict_get "positive electrode" (submodels (snd (new None false)))
  = Some (electrode_ohm_Full tt "Positive" "main").
Proof.
  split.
  - apply (electrodes_follow_surface_form base (Some differential_options)
             default_name false (object_new [])
             (snd (new (Some differential_options) false))
             (Str "differential")); try evaluate.
    apply demo_roles_unique.
  - apply (electrodes_follow_surface_form base None default_name false
             (object_new []) (snd (new None false)) (Bool false));
      try evaluate.
    apply demo_roles_unique.
Defined.

Lemma porosity_and_convection_fixed_witness :
  dict_get "porosity" (submodels (snd (new None true)))
    = Some (porosity_Constant tt)
  /\ dict_get "convection" (submodels (snd (new None true)))
    = Some (convection_NoConvection tt).
Proof.
  apply (porosity_and_convection_fixed base None default_name true
           (object_new [])).
  - evaluate.
  - apply demo_roles_unique.
Defined.

End Examples.
